(** * StackedPhones: the interaction state machine of the stacked-card widget

    A shallow embedding of the [StackedPhones] class (the later, unified
    click/touch/keyboard version of the component) together with the small
    part of the DOM it talks to: the container's class list, the overlay
    elements it creates, event listeners with the identity of the function
    objects they hold, and the custom events dispatched on the container. *)

From stdpp Require Import gmap strings list pretty.

Local Open Scope string_scope.
Local Open Scope list_scope.
Local Open Scope stdpp_scope.

(** ** JavaScript values that reach the component *)

(** An argument of the public API that has a [toString] method: a number
    (a non-negative integer small enough to print in plain decimal) or a
    string. *)
Inductive JsVal :=
  | JNum (n : N)
  | JStr (s : string).

Definition toString (v : JsVal) : string :=
  match v with
  | JNum n => pretty n
  | JStr s => s
  end.

(** Interpolation of a string-or-null inside a template literal. *)
Definition interpolate (p : option string) : string := default "null" p.

(** Truthiness of a string-or-null: [null] and the empty string are falsy. *)
Definition truthy (p : option string) : bool :=
  match p with
  | Some s => negb (bool_decide (s = ""))
  | None => false
  end.

Definition boolToString (b : bool) : string := if b then "true" else "false".

(** The outcome of running a piece of code: it returns or it throws. *)
Inductive Completion (A : Type) :=
  | Normal (a : A)
  | Throw (err : string).
Arguments Normal {A} a.
Arguments Throw {A} err.

(** ** The DOM as the component sees it *)

Inductive Method :=
  | HandleInteraction
  | HandleTouchInteraction
  | HandleKeyboard
  | HandleClickOutside.

(** A function object: the method found on the prototype, or the result of
    one call of [bind], which is a new object each time. *)
Inductive FnRef :=
  | Proto (m : Method)
  | Bound (m : Method) (k : nat).

Inductive EvType := Click | TouchEnd | KeyDown.

Record Listener := mkListener { ltype : EvType; lfn : FnRef }.

#[global] Instance Method_eq_dec : EqDecision Method.
Proof. solve_decision. Defined.
#[global] Instance FnRef_eq_dec : EqDecision FnRef.
Proof. solve_decision. Defined.
#[global] Instance EvType_eq_dec : EqDecision EvType.
Proof. solve_decision. Defined.
#[global] Instance Listener_eq_dec : EqDecision Listener.
Proof. solve_decision. Defined.

(** An overlay element created by the component. [className] is kept as its
    list of tokens. *)
Record Element := mkElement {
  className : list string;
  attrs : gmap string string;
  style : gmap string string;
  listeners : list Listener
}.

Definition set_attrs (f : gmap string string → gmap string string) (el : Element) : Element :=
  mkElement (className el) (f (attrs el)) (style el) (listeners el).
Definition set_style (f : gmap string string → gmap string string) (el : Element) : Element :=
  mkElement (className el) (attrs el) (f (style el)) (listeners el).
Definition set_listeners (f : list Listener → list Listener) (el : Element) : Element :=
  mkElement (className el) (attrs el) (style el) (f (listeners el)).

(** Where an input event lands. Overlays have no children, so an overlay is
    only ever the target itself. Any other element is described by the class
    lists met on the way up: for an element inside the container (or the
    container itself, with [below = []]) the class lists from the target up
    to, not including, the container; for an element outside the container,
    the class lists of the target and of all its ancestors. *)
Inductive Target :=
  | TOverlay (id : nat)
  | TInside (below : list (list string))
  | TOutside (chain : list (list string)).

Record Event := mkEvent { etype : EvType; key : string; target : Target }.

(** A custom event dispatched on the container. [evDetail] holds the fields
    of [detail] other than [instance]; [evActiveCard] and [evClassList] are
    what a listener reads through [detail.instance] while it runs, since
    dispatch is synchronous. *)
Record CustomEvent := mkCustomEvent {
  evName : string;
  evDetail : list (string * option string);
  evActiveCard : option string;
  evClassList : list string
}.

Inductive Output :=
  | ConsoleWarn (msg : string)
  | ConsoleLog (msg : string)
  | Dispatched (ev : CustomEvent).

Record Config := mkConfig {
  debugMode : bool;
  enableClickOutside : bool;
  overlayVisibleWidths : list Z;
  overlayLeftPositions : list Z;
  enableHoverFeedback : bool
}.

(** ** The instance and its surroundings *)

(** The container handed to the constructor: its class list, the class lists
    of its ancestors, and the number of [.phone-card] descendants. The
    container is taken to be connected to the document. *)
Record ContainerEl := mkContainerEl {
  cClasses : list string;
  cOuter : list (list string);
  cCards : nat
}.

Record World := mkWorld {
  classList : list string;        (* this.container.classList *)
  outerClasses : list (list string); (* class lists of the container's ancestors *)
  phoneCards : nat;               (* this.phoneCards.length *)
  children : list nat;            (* overlays currently attached under the container *)
  elems : list Element;           (* every overlay element created so far, by id *)
  docListeners : list Listener;   (* listeners this component put on document *)
  overlays : list nat;            (* this.overlays, as references into elems *)
  activeCard : option string;     (* this.activeCard *)
  config : Config;                (* this.config *)
  nextBound : nat;                (* identity of the next bound function *)
  outputs : list Output           (* console lines and dispatched events, oldest first *)
}.

Definition set_classList (f : list string → list string) (w : World) : World :=
  mkWorld (f (classList w)) (outerClasses w) (phoneCards w) (children w) (elems w)
    (docListeners w) (overlays w) (activeCard w) (config w) (nextBound w) (outputs w).
Definition set_children (f : list nat → list nat) (w : World) : World :=
  mkWorld (classList w) (outerClasses w) (phoneCards w) (f (children w)) (elems w)
    (docListeners w) (overlays w) (activeCard w) (config w) (nextBound w) (outputs w).
Definition set_elems (f : list Element → list Element) (w : World) : World :=
  mkWorld (classList w) (outerClasses w) (phoneCards w) (children w) (f (elems w))
    (docListeners w) (overlays w) (activeCard w) (config w) (nextBound w) (outputs w).
Definition set_docListeners (f : list Listener → list Listener) (w : World) : World :=
  mkWorld (classList w) (outerClasses w) (phoneCards w) (children w) (elems w)
    (f (docListeners w)) (overlays w) (activeCard w) (config w) (nextBound w) (outputs w).
Definition set_overlays (f : list nat → list nat) (w : World) : World :=
  mkWorld (classList w) (outerClasses w) (phoneCards w) (children w) (elems w)
    (docListeners w) (f (overlays w)) (activeCard w) (config w) (nextBound w) (outputs w).
Definition set_activeCard (a : option string) (w : World) : World :=
  mkWorld (classList w) (outerClasses w) (phoneCards w) (children w) (elems w)
    (docListeners w) (overlays w) a (config w) (nextBound w) (outputs w).
Definition set_config (f : Config → Config) (w : World) : World :=
  mkWorld (classList w) (outerClasses w) (phoneCards w) (children w) (elems w)
    (docListeners w) (overlays w) (activeCard w) (f (config w)) (nextBound w) (outputs w).
Definition set_nextBound (f : nat → nat) (w : World) : World :=
  mkWorld (classList w) (outerClasses w) (phoneCards w) (children w) (elems w)
    (docListeners w) (overlays w) (activeCard w) (config w) (f (nextBound w)) (outputs w).
Definition emit (o : Output) (w : World) : World :=
  mkWorld (classList w) (outerClasses w) (phoneCards w) (children w) (elems w)
    (docListeners w) (overlays w) (activeCard w) (config w) (nextBound w) (outputs w ++ [o]).

(** [array.forEach((x, index) => body)] with the world threaded through. *)
Fixpoint forEachFrom {A} (body : A → nat → World → World) (index : nat)
    (l : list A) (w : World) : World :=
  match l with
  | [] => w
  | x :: l' => forEachFrom body (S index) l' (body x index w)
  end.
Definition forEach {A} (body : A → nat → World → World) (l : list A) (w : World) : World :=
  forEachFrom body 0 l w.

(** *** DOM primitives *)

(** [classList.add]: a token already present is not added again. The DOM
    refuses a token that contains ASCII whitespace and throws; that is not
    modelled, as no token the component builds from an item identifier has
    any. A statement that ranges over other arguments says so where it
    matters (see [noWhitespace]). *)
Definition classList_add (c : string) (w : World) : World :=
  set_classList (λ l, if bool_decide (c ∈ l) then l else l ++ [c]) w.

(** [classList.remove(c1, c2, ...)]. *)
Definition classList_remove (cs : list string) (w : World) : World :=
  set_classList (filter (λ c, c ∉ cs)) w.

Definition classList_contains (c : string) (w : World) : bool :=
  bool_decide (c ∈ classList w).

Definition setAttribute (id : nat) (k v : string) (w : World) : World :=
  set_elems (alter (set_attrs (insert k v)) id) w.

Definition getAttribute (id : nat) (k : string) (w : World) : option string :=
  elems w !! id ≫= λ el, attrs el !! k.

Definition setStyle (id : nat) (k v : string) (w : World) : World :=
  set_elems (alter (set_style (insert k v)) id) w.

(** [addEventListener]: the same type with the same function object is not
    registered twice. *)
Definition addListener (l : Listener) (ls : list Listener) : list Listener :=
  if bool_decide (l ∈ ls) then ls else ls ++ [l].

(** [removeEventListener]: removes the entry with this type and this very
    function object, if there is one. *)
Definition removeListener (l : Listener) (ls : list Listener) : list Listener :=
  filter (λ l', l' ≠ l) ls.

(** [this.method.bind(this)]: a fresh function object. *)
Definition bind (m : Method) (w : World) : FnRef * World :=
  (Bound m (nextBound w), set_nextBound S w).

Definition overlay_addEventListener (id : nat) (ty : EvType) (m : Method) (w : World) : World :=
  let '(fn, w) := bind m w in
  set_elems (alter (set_listeners (addListener (mkListener ty fn))) id) w.

Definition overlay_removeEventListener (id : nat) (ty : EvType) (fn : FnRef) (w : World) : World :=
  set_elems (alter (set_listeners (removeListener (mkListener ty fn))) id) w.

Definition document_addEventListener (ty : EvType) (m : Method) (w : World) : World :=
  let '(fn, w) := bind m w in
  set_docListeners (addListener (mkListener ty fn)) w.

Definition document_removeEventListener (ty : EvType) (fn : FnRef) (w : World) : World :=
  set_docListeners (removeListener (mkListener ty fn)) w.

(** [overlay.remove()]: detaches the element from the container; the element
    itself, with its listeners, lives on for whoever still holds it. *)
Definition overlay_remove (id : nat) (w : World) : World :=
  set_children (filter (λ c, c ≠ id)) w.

Definition createElement (w : World) : nat * World :=
  (length (elems w), set_elems (λ l, l ++ [mkElement [] ∅ ∅ []]) w).

Definition setClassName (id : nat) (cs : list string) (w : World) : World :=
  set_elems (alter (λ el, mkElement cs (attrs el) (style el) (listeners el)) id) w.

(** [container.appendChild]: the element becomes the last child. *)
Definition appendChild (id : nat) (w : World) : World :=
  set_children (λ l, filter (λ c, c ≠ id) l ++ [id]) w.

Definition hasClass (c : string) (cl : list string) : bool := bool_decide (c ∈ cl).

(** Whether [target.closest('.' + c)] finds an element. *)
Definition closest (c : string) (t : Target) (w : World) : bool :=
  let fromContainer := hasClass c (classList w) || existsb (hasClass c) (outerClasses w) in
  match t with
  | TOverlay id =>
      match elems w !! id with Some el => hasClass c (className el) | None => false end
      || (bool_decide (id ∈ children w) && fromContainer)
  | TInside below => existsb (hasClass c) below || fromContainer
  | TOutside chain => existsb (hasClass c) chain
  end.

(** Whether an event on this target bubbles up to the document. *)
Definition connected (t : Target) (w : World) : bool :=
  match t with
  | TOverlay id => bool_decide (id ∈ children w)
  | TInside _ | TOutside _ => true
  end.

(** [e.target.getAttribute(k)], for the attributes the component reads.
    Only overlay listeners read attributes, and they only run with an overlay
    as target. *)
Definition targetAttribute (e : Event) (k : string) (w : World) : option string :=
  match target e with
  | TOverlay id => getAttribute id k w
  | TInside _ | TOutside _ => None
  end.

(** ** The class *)

(** *** Custom events and ARIA state *)

Definition dispatchEvent (eventName : string) (detail : list (string * option string))
    (w : World) : World :=
  emit (Dispatched (mkCustomEvent eventName detail (activeCard w) (classList w))) w.

Definition updateAriaStates (activePhoneNumber : option string) (w : World) : World :=
  forEach (λ overlay index w,
    let phoneNumber := pretty (index + 1)%nat in
    let isActive := bool_decide (Some phoneNumber = activePhoneNumber) in
    let w := setAttribute overlay "aria-pressed" (boolToString isActive) w in
    setAttribute overlay "aria-expanded" (boolToString isActive) w)
    (overlays w) w.

(** *** The toggle operation *)

Definition activeClasses : list string :=
  ["phone-1-active"; "phone-2-active"; "phone-3-active"].

Definition deactivateAll (w : World) : World :=
  let w := classList_remove activeClasses w in
  let w := set_activeCard None w in
  let w := updateAriaStates None w in
  dispatchEvent "phoneDeactivated" [] w.

Definition cardClassOf (phoneNumber : option string) : string :=
  "phone-" +:+ interpolate phoneNumber +:+ "-active".

Definition togglePhone (phoneNumber : option string) (w : World) : World :=
  let cardClass := cardClassOf phoneNumber in
  if classList_contains cardClass w then deactivateAll w
  else
    let w := deactivateAll w in
    let w := classList_add cardClass w in
    let w := set_activeCard phoneNumber w in
    let w := updateAriaStates phoneNumber w in
    dispatchEvent "phoneActivated" [("phoneNumber", phoneNumber)] w.

(** *** Event handlers; the boolean tells whether propagation was stopped *)

Definition handleInteraction (e : Event) (w : World) : World * bool :=
  let phoneNumber := targetAttribute e "data-phone" w in
  (togglePhone phoneNumber w, true).

Definition handleTouchInteraction (e : Event) (w : World) : World * bool :=
  let phoneNumber := targetAttribute e "data-phone" w in
  (togglePhone phoneNumber w, true).

Definition handleKeyboard (e : Event) (w : World) : World * bool :=
  if bool_decide (key e = "Enter") || bool_decide (key e = " ") then
    let phoneNumber := targetAttribute e "data-phone" w in
    (togglePhone phoneNumber w, true)
  else (w, false).

Definition handleClickOutside (e : Event) (w : World) : World * bool :=
  if negb (closest "phone-stack-container" (target e) w) && truthy (activeCard w)
  then (deactivateAll w, false)
  else (w, false).

Definition call (m : Method) (e : Event) (w : World) : World * bool :=
  match m with
  | HandleInteraction => handleInteraction e w
  | HandleTouchInteraction => handleTouchInteraction e w
  | HandleKeyboard => handleKeyboard e w
  | HandleClickOutside => handleClickOutside e w
  end.

(** Running one registered listener on an event. Every listener the
    component registers holds a bound function; a prototype method is never
    registered, so nothing is run for it. *)
Definition invoke (e : Event) (ws : World * bool) (l : Listener) : World * bool :=
  if bool_decide (ltype l = etype e) then
    match lfn l with
    | Bound m _ => let '(w', stopped) := call m e ws.1 in (w', stopped || ws.2)
    | Proto _ => ws
    end
  else ws.

Definition listenersAt (t : Target) (w : World) : list Listener :=
  match t with
  | TOverlay id => match elems w !! id with Some el => listeners el | None => [] end
  | TInside _ | TOutside _ => []
  end.

(** The browser delivering an input event: the listeners on the target run,
    then, unless propagation was stopped or the target is detached, the
    listeners on the document. *)
Definition dispatch (e : Event) (w : World) : World :=
  let r := foldl (invoke e) (w, false) (listenersAt (target e) w) in
  if r.2 || negb (connected (target e) w) then r.1
  else (foldl (invoke e) (r.1, false) (docListeners r.1)).1.

(** *** Set-up *)

Record OverlayConfig := mkOverlayConfig {
  ocClassName : list string;
  ocPhoneNumber : string;
  ocFullWidth : bool
}.

Definition overlayConfigs : list OverlayConfig :=
  [ mkOverlayConfig ["click-overlay"; "click-overlay-1"] "1" true;
    mkOverlayConfig ["click-overlay"; "click-overlay-2"] "2" false;
    mkOverlayConfig ["click-overlay"; "click-overlay-3"] "3" false ].

Definition createClickOverlays (w : World) : World :=
  forEach (λ cfg (index : nat) w,
    let '(overlay, w) := createElement w in
    let w := setClassName overlay (ocClassName cfg) w in
    let w := setAttribute overlay "data-phone" (ocPhoneNumber cfg) w in
    let w := setAttribute overlay "aria-label" ("Toggle phone " +:+ ocPhoneNumber cfg) w in
    let w := setAttribute overlay "role" "button" w in
    let w := setAttribute overlay "tabindex" "0" w in
    let w := appendChild overlay w in
    set_overlays (λ l, l ++ [overlay]) w)
    overlayConfigs w.

Definition bindEvents (w : World) : World :=
  let w := forEach (λ overlay (_ : nat) w,
    let w := overlay_addEventListener overlay Click HandleInteraction w in
    let w := overlay_addEventListener overlay TouchEnd HandleTouchInteraction w in
    overlay_addEventListener overlay KeyDown HandleKeyboard w)
    (overlays w) w in
  if enableClickOutside (config w)
  then document_addEventListener Click HandleClickOutside w
  else w.

Definition enableDebugMode (w : World) : World :=
  let w := forEach (λ overlay (_ : nat) w,
    let w := setStyle overlay "background" "rgba(255, 0, 0, 0.3)" w in
    let w := setStyle overlay "border" "2px solid red" w in
    setStyle overlay "opacity" "0.8" w)
    (overlays w) w in
  emit (ConsoleLog "StackedPhones Debug Mode: Click areas are now visible") w.

Definition disableDebugMode (w : World) : World :=
  let w := forEach (λ overlay (_ : nat) w,
    let w := setStyle overlay "background" "transparent" w in
    let w := setStyle overlay "border" "none" w in
    setStyle overlay "opacity" "1" w)
    (overlays w) w in
  let w := set_config (λ c, mkConfig false (enableClickOutside c) (overlayVisibleWidths c)
                               (overlayLeftPositions c) (enableHoverFeedback c)) w in
  emit (ConsoleLog "StackedPhones Debug Mode: Disabled") w.

Definition init (w : World) : World :=
  let w := createClickOverlays w in
  let w := bindEvents w in
  if debugMode (config w) then enableDebugMode w else w.

(** The configuration literal of the constructor. *)
Definition sourceConfig : Config :=
  mkConfig false true [180; 100; 100]%Z [0; 200; 320]%Z true.

(** The constructor body, with the configuration literal as a parameter.
    [container.querySelectorAll] is evaluated before the guard looks at
    [container], so a null container throws there. *)
Definition fresh (cfg : Config) (c : ContainerEl) : World :=
  mkWorld (cClasses c) (cOuter c) (cCards c) [] [] [] [] None cfg 0 [].

Definition construct (cfg : Config) (container : option ContainerEl) : Completion World :=
  match container with
  | None => Throw "TypeError: Cannot read properties of null (reading 'querySelectorAll')"
  | Some c =>
      let w := fresh cfg c in
      if negb (bool_decide (is_Some container)) || bool_decide (phoneCards w = 0%nat)
      then Normal (emit (ConsoleWarn "StackedPhones: Container or phone cards not found") w)
      else Normal (init w)
  end.

Definition constructor (container : option ContainerEl) : Completion World :=
  construct sourceConfig container.

(** *** Public API *)

Definition activatePhone (phoneNumber : JsVal) (w : World) : World :=
  togglePhone (Some (toString phoneNumber)) w.

Definition getActivePhone (w : World) : option string := activeCard w.

Definition isPhoneActive (phoneNumber : JsVal) (w : World) : bool :=
  bool_decide (activeCard w = Some (toString phoneNumber)).

Definition toggleDebugMode (w : World) : World :=
  let w := set_config (λ c, mkConfig (negb (debugMode c)) (enableClickOutside c)
                               (overlayVisibleWidths c) (overlayLeftPositions c)
                               (enableHoverFeedback c)) w in
  if debugMode (config w) then enableDebugMode w else disableDebugMode w.

Definition updateOverlayPositions (positions : option (list Z)) (w : World) : World :=
  match positions with
  | Some ps =>
      if bool_decide (length ps = 3%nat)
      then set_config (λ c, mkConfig (debugMode c) (enableClickOutside c)
                              (overlayVisibleWidths c) ps (enableHoverFeedback c)) w
      else w
  | None => w
  end.

Definition getPhoneNumbers : list string := ["1"; "2"; "3"].

(** [array.indexOf(x)] with strict equality, [-1] when absent. *)
Fixpoint indexOfFrom (x : option string) (l : list string) (i : Z) : Z :=
  match l with
  | [] => (-1)%Z
  | y :: l' => if bool_decide (x = Some y) then i else indexOfFrom x l' (i + 1)%Z
  end.
Definition indexOf (l : list string) (x : option string) : Z := indexOfFrom x l 0%Z.

Definition cycleToNext (w : World) : World :=
  let phones := getPhoneNumbers in
  let currentIndex := indexOf phones (activeCard w) in
  let nextIndex := Z.rem (currentIndex + 1) (Z.of_nat (length phones)) in
  if bool_decide (currentIndex = (-1)%Z) then
    match phones !! 0%nat with
    | Some p => activatePhone (JStr p) w
    | None => w
    end
  else
    match phones !! Z.to_nat nextIndex with
    | Some p => activatePhone (JStr p) w
    | None => w
    end.

Definition destroy (w : World) : World :=
  let w := forEach (λ overlay (_ : nat) w,
    let w := overlay_removeEventListener overlay Click (Proto HandleInteraction) w in
    let w := overlay_removeEventListener overlay TouchEnd (Proto HandleTouchInteraction) w in
    let w := overlay_removeEventListener overlay KeyDown (Proto HandleKeyboard) w in
    overlay_remove overlay w)
    (overlays w) w in
  let w := if enableClickOutside (config w)
           then document_removeEventListener Click (Proto HandleClickOutside) w
           else w in
  let w := set_overlays (λ _, []) w in
  let w := set_activeCard None w in
  emit (ConsoleLog "StackedPhones: Component destroyed") w.

(** ** Driving the component *)

Inductive Action :=
  | CallTogglePhone (phoneNumber : option string)
  | CallActivatePhone (phoneNumber : JsVal)
  | CallCycleToNext
  | CallToggleDebugMode
  | CallUpdateOverlayPositions (positions : option (list Z))
  | CallDestroy
  | Input (e : Event).

Definition step (w : World) (a : Action) : World :=
  match a with
  | CallTogglePhone p => togglePhone p w
  | CallActivatePhone v => activatePhone v w
  | CallCycleToNext => cycleToNext w
  | CallToggleDebugMode => toggleDebugMode w
  | CallUpdateOverlayPositions ps => updateOverlayPositions ps w
  | CallDestroy => destroy w
  | Input e => dispatch e w
  end.

Definition run (acts : list Action) (w : World) : World := foldl step w acts.

(** The custom events among some outputs, and those an operation adds. *)
Definition notifications (os : list Output) : list CustomEvent :=
  omap (λ o, match o with Dispatched ev => Some ev | _ => None end) os.

Definition warnings (os : list Output) : list string :=
  omap (λ o, match o with ConsoleWarn m => Some m | _ => None end) os.

Definition emittedBy (f : World → World) (w : World) : list CustomEvent :=
  notifications (drop (length (outputs w)) (outputs (f w))).


(** ** Vocabulary of the state machine and of the proofs *)

(** The presentation markers the container carries. *)
Definition markers (w : World) : list string :=
  filter (λ c, c ∈ activeClasses) (classList w).

(** An activation by a valid item identifier. *)
Definition activation (a : Action) : bool :=
  match a with
  | CallTogglePhone (Some x) => bool_decide (x ∈ getPhoneNumbers)
  | CallActivatePhone v => bool_decide (toString v ∈ getPhoneNumbers)
  | _ => false
  end.

(** None, or one valid item identifier. *)
Definition validId (p : option string) : Prop :=
  match p with
  | None => True
  | Some x => x ∈ getPhoneNumbers
  end.

#[global] Instance validId_dec p : Decision (validId p).
Proof. destruct p; apply _. Defined.

(** The marker that goes with a selection. *)
Definition markerOf (a : option string) : list string :=
  match a with
  | None => []
  | Some x => [cardClassOf (Some x)]
  end.

(** Idle, or Active on a valid item, with the marker to match. *)
Definition Tidy (w : World) : Prop :=
  validId (activeCard w) ∧ markers w = markerOf (activeCard w).

(** The class list after [deactivateAll]. *)
Definition cleared (l : list string) : list string := filter (λ c, c ∉ activeClasses) l.

(** The class list after an activation that does not toggle off. *)
Definition marked (c : string) (l : list string) : list string :=
  if bool_decide (c ∈ cleared l) then cleared l else cleared l ++ [c].

(** What one round of [updateAriaStates] does to the overlay at [index]. *)
Definition ariaOf (a : option string) (index : nat) (el : Element) : Element :=
  let v := boolToString (bool_decide (Some (pretty (index + 1)%nat) = a)) in
  set_attrs (insert "aria-expanded" v) (set_attrs (insert "aria-pressed" v) el).

(** Two versions of an element that differ at most in style and in
    attributes other than the item tag. *)
Definition sameOverlay (el el' : Element) : Prop :=
  className el' = className el ∧
  attrs el' !! "data-phone" = attrs el !! "data-phone" ∧
  listeners el' = listeners el.

(** Two versions of an element that differ at most in style. *)
Definition sameButStyle (el el' : Element) : Prop :=
  className el' = className el ∧ attrs el' = attrs el ∧ listeners el' = listeners el.

(** The item tags of the overlays the instance holds, in order. *)
Definition tags (w : World) : list (option string) :=
  (λ o, getAttribute o "data-phone" w) <$> overlays w.

(** Per overlay of the instance: its item tag, its pressed flag and its
    expanded flag. *)
Definition ariaView (w : World) : list (option string * option string * option string) :=
  (λ o, (getAttribute o "data-phone" w, getAttribute o "aria-pressed" w,
         getAttribute o "aria-expanded" w)) <$> overlays w.

(** The view that agrees with selection [a]: one overlay per item, flags
    true exactly on the overlay tagged [a]. *)
Definition expectedAria (a : option string) : list (option string * option string * option string) :=
  (λ x, let flag := Some (boolToString (bool_decide (Some x = a))) in (Some x, flag, flag))
    <$> getPhoneNumbers.

(** The instance holds three distinct overlays tagged with the items in
    order, and every overlay element ever created carries a valid tag. *)
Definition Wired (w : World) : Prop :=
  NoDup (overlays w) ∧
  tags w = Some <$> getPhoneNumbers ∧
  Forall (λ el, validId (attrs el !! "data-phone")) (elems w).

(** An instance in which some transition has completed: the markers, the
    selection and the ARIA flags all agree. *)
Definition Settled (w : World) : Prop :=
  Tidy w ∧ ariaView w = expectedAria (activeCard w).

(** Operations a set-up instance meets in ordinary use: activations by a
    valid identifier, cycling, the debug and layout setters, and any input
    event; not teardown. *)
Definition ordinary (a : Action) : bool :=
  match a with
  | CallTogglePhone (Some x) => bool_decide (x ∈ getPhoneNumbers)
  | CallTogglePhone None => false
  | CallActivatePhone v => bool_decide (toString v ∈ getPhoneNumbers)
  | CallDestroy => false
  | CallCycleToNext | CallToggleDebugMode | CallUpdateOverlayPositions _ | Input _ => true
  end.

(** No transition has happened yet. *)
Definition Quiet (w : World) : Prop :=
  notifications (outputs w) = [] ∧ activeCard w = None.

(** What holds of every state a set-up instance reaches in ordinary use. *)
Definition StateInv (w : World) : Prop := Wired w ∧ (Quiet w ∨ Settled w).

(** A container as in the README, with three cards, and the instance the
    constructor builds on it. *)
Definition c3 : ContainerEl := mkContainerEl ["phone-stack-container"] [] 3.
Definition demo : World := init (fresh sourceConfig c3).

(** The item after a selection in the fixed order, wrapping; the first item
    when there is no selection. *)
Definition nextInOrder (a : option string) : option string :=
  match a with
  | None => Some "1"
  | Some x =>
      if bool_decide (x = "1") then Some "2"
      else if bool_decide (x = "2") then Some "3"
      else Some "1"
  end.

(** The pressed flag of the overlay the instance holds for item [x]. *)
Definition ariaPressed (x : string) (w : World) : option string :=
  match head (filter (λ t, t.1.1 = Some x) (ariaView w)) with
  | Some t => t.1.2
  | None => None
  end.

(** C2 as the specification words it: switching emits one 'activated'
    notification carrying the new item and no 'deactivated' one. *)
Definition direct_switch_claim : Prop :=
  ∀ (c : ContainerEl) (w0 : World) (acts : list Action) (X Y : string),
    constructor (Some c) = Normal w0 → cCards c ≠ 0%nat →
    forallb ordinary acts = true →
    getActivePhone (run acts w0) = Some X → Y ∈ getPhoneNumbers → Y ≠ X →
    let em := emittedBy (activatePhone (JStr Y)) (run acts w0) in
    let w' := activatePhone (JStr Y) (run acts w0) in
    (λ ev, (evName ev, evDetail ev)) <$> filter (λ ev, evName ev = "phoneActivated") em
      = [("phoneActivated", [("phoneNumber", Some Y)])] ∧
    Forall (λ ev, evName ev ≠ "phoneDeactivated") em ∧
    getActivePhone w' = Some Y ∧
    ariaPressed X w' = Some "false" ∧ ariaPressed Y w' = Some "true".

(** The listener holds a bound function. *)
Definition isBound (l : Listener) : bool :=
  match lfn l with
  | Bound _ _ => true
  | Proto _ => false
  end.

(** C8 as the specification words it: with dismissal enabled every click
    whose target is outside the component's root dismisses; with dismissal
    disabled it changes nothing. *)
Definition outside_click_claim : Prop :=
  ∀ (cfg : Config) (c : ContainerEl) (w0 : World) (acts : list Action) (e : Event)
    (chain : list (list string)) (X : string),
    construct cfg (Some c) = Normal w0 → cCards c ≠ 0%nat →
    etype e = Click → target e = TOutside chain →
    getActivePhone (run acts w0) = Some X → X ∈ getPhoneNumbers →
    if enableClickOutside cfg
    then getActivePhone (dispatch e (run acts w0)) = None ∧
         evName <$> emittedBy (dispatch e) (run acts w0) = ["phoneDeactivated"]
    else dispatch e (run acts w0) = run acts w0.

(** A click on an element of the page that lies in no component. *)
Definition outsideClick : Event := mkEvent Click "" (TOutside [["page"]]).



(** No overlay element exists and no listener is bound anywhere. *)
Definition Deaf (w : World) : Prop :=
  elems w = [] ∧ docListeners w = [].

(** The relation that holds of any two elements; relating two heaps by it
    says they have the same size. *)
Definition anyPair (el el' : Element) : Prop := True.


(** ** Vocabulary for the rest of the class *)

(** Any operation but teardown. *)
Definition alive (a : Action) : bool :=
  match a with
  | CallDestroy => false
  | _ => true
  end.

(** The events that the overlay handlers turn into a toggle: a click, a
    touchend, or a keydown of Enter or Space. *)
Definition activating (e : Event) : bool :=
  match etype e with
  | Click | TouchEnd => true
  | KeyDown => bool_decide (key e = "Enter") || bool_decide (key e = " ")
  end.

(** What never changes in an overlay element once it is set up: its class
    tokens, its item tag and its listeners. *)
Definition overlayShape (el : Element) : list string * option string * list Listener :=
  (className el, attrs el !! "data-phone", listeners el).

(** The shapes [createClickOverlays] and [bindEvents] give the overlays. *)
Definition setUpShape : list (list string * option string * list Listener) :=
  imap (λ i cfg,
    (ocClassName cfg, Some (ocPhoneNumber cfg),
     [mkListener Click (Bound HandleInteraction (3 * i));
      mkListener TouchEnd (Bound HandleTouchInteraction (3 * i + 1));
      mkListener KeyDown (Bound HandleKeyboard (3 * i + 2))]))
    overlayConfigs.

(** A custom event whose payload and whose view of the instance agree:
    'phoneActivated' carries the item that is the selection at that moment,
    with that item's marker on the container; 'phoneDeactivated' carries
    nothing and is dispatched with no selection and none of the three markers
    on the container. *)
Definition coherent (ev : CustomEvent) : Prop :=
  (evName ev = "phoneActivated" ∧
   evDetail ev = [("phoneNumber", evActiveCard ev)] ∧
   cardClassOf (evActiveCard ev) ∈ evClassList ev) ∨
  (evName ev = "phoneDeactivated" ∧
   evDetail ev = [] ∧ evActiveCard ev = None ∧
   filter (λ c, c ∈ activeClasses) (evClassList ev) = []).

(** The listeners of the later version of an element were all there before,
    in the same order. *)
Definition noNewListeners (el el' : Element) : Prop :=
  listeners el' `sublist_of` listeners el.

(** Two versions of an element that differ at most in their listeners. *)
Definition sameButListeners (el el' : Element) : Prop :=
  className el' = className el ∧ attrs el' = attrs el ∧ style el' = style el.

(** What [enableDebugMode] and [disableDebugMode] write into an overlay's
    style. *)
Definition debugStyle (on : bool) (el : Element) : Element :=
  if on
  then set_style (insert "opacity" "0.8")
         (set_style (insert "border" "2px solid red")
            (set_style (insert "background" "rgba(255, 0, 0, 0.3)") el))
  else set_style (insert "opacity" "1")
         (set_style (insert "border" "none")
            (set_style (insert "background" "transparent") el)).

(** The overlay element that [createClickOverlays] and [bindEvents] make
    for the [i]-th entry of [overlayConfigs]. *)
Definition setUpOverlay (i : nat) (oc : OverlayConfig) : Element :=
  mkElement (ocClassName oc)
    (list_to_map [("data-phone", ocPhoneNumber oc);
                  ("aria-label", "Toggle phone " +:+ ocPhoneNumber oc);
                  ("role", "button");
                  ("tabindex", "0")])
    ∅
    [mkListener Click (Bound HandleInteraction (3 * i));
     mkListener TouchEnd (Bound HandleTouchInteraction (3 * i + 1));
     mkListener KeyDown (Bound HandleKeyboard (3 * i + 2))].

(** ** Page bootstrap *)

(** [containers.forEach(container => window.stackedPhones.push(new
    StackedPhones(container)))], with the registry threaded through. *)
Fixpoint instantiateAll (containers : list ContainerEl) (registry : list World)
    : Completion (list World) :=
  match containers with
  | [] => Normal registry
  | container :: rest =>
      match constructor (Some container) with
      | Normal stackedPhone => instantiateAll rest (registry ++ [stackedPhone])
      | Throw err => Throw err
      end
  end.

(** The [DOMContentLoaded] handler, given the elements that
    [document.querySelectorAll('.phone-stack-container')] returns: the
    registry [window.stackedPhones] and the console output of the handler
    itself. *)
Definition bootstrap (containers : list ContainerEl) : Completion (list World * list Output) :=
  match instantiateAll containers [] with
  | Normal registry =>
      Normal (registry,
              if bool_decide (0 < length containers)%nat
              then [ConsoleLog ("StackedPhones: Initialized " +:+ pretty (length containers)
                                +:+ " component(s)")]
              else [])
  | Throw err => Throw err
  end.

(** ** The earlier version of the class (stacked-phones.js) *)

Module Legacy.

(** The earlier [deactivateAll]: no ARIA state to reset. *)
Definition deactivateAll (w : World) : World :=
  let w := classList_remove activeClasses w in
  let w := set_activeCard None w in
  dispatchEvent "phoneDeactivated" [] w.

(** The earlier [togglePhone]: no ARIA state to update. *)
Definition togglePhone (phoneNumber : option string) (w : World) : World :=
  let cardClass := cardClassOf phoneNumber in
  if classList_contains cardClass w then deactivateAll w
  else
    let w := deactivateAll w in
    let w := classList_add cardClass w in
    let w := set_activeCard phoneNumber w in
    dispatchEvent "phoneActivated" [("phoneNumber", phoneNumber)] w.

Definition activatePhone (phoneNumber : JsVal) (w : World) : World :=
  togglePhone (Some (toString phoneNumber)) w.

Definition getActivePhone (w : World) : option string := activeCard w.

End Legacy.

(** A call of one of the two activation methods that both versions have. *)
Inductive ActivationCall :=
  | ViaTogglePhone (phoneNumber : option string)
  | ViaActivatePhone (phoneNumber : JsVal).

Definition legacyCall (w : World) (a : ActivationCall) : World :=
  match a with
  | ViaTogglePhone p => Legacy.togglePhone p w
  | ViaActivatePhone v => Legacy.activatePhone v w
  end.

Definition laterCall (w : World) (a : ActivationCall) : World :=
  match a with
  | ViaTogglePhone p => togglePhone p w
  | ViaActivatePhone v => activatePhone v w
  end.

(** Two instances that show the same thing to the page: the same classes on
    the container, the same selection, the same console lines and custom
    events. *)
Definition sameFace (w w' : World) : Prop :=
  classList w = classList w' ∧ activeCard w = activeCard w' ∧ outputs w = outputs w'.

(** Two versions of an element with the same class tokens that differ in no
    attribute other than the pressed and expanded flags. *)
Definition onlyAriaDiffers (el el' : Element) : Prop :=
  className el' = className el ∧
  ∀ k, k ≠ "aria-pressed" → k ≠ "aria-expanded" → attrs el' !! k = attrs el !! k.

(** ** Vocabulary for states whose marker and selection disagree *)

(** ASCII whitespace as the DOM defines it: tab, line feed, form feed,
    carriage return and space. *)
Definition isAsciiWhitespace (a : Ascii.ascii) : bool :=
  bool_decide (a ∈ [Ascii.ascii_of_nat 9; Ascii.ascii_of_nat 10; Ascii.ascii_of_nat 12;
                    Ascii.ascii_of_nat 13; Ascii.ascii_of_nat 32]).

(** The string holds no ASCII whitespace, so that a class token built from
    it is one that [classList.add] accepts. *)
Definition noWhitespace (s : string) : bool :=
  forallb (λ a, negb (isAsciiWhitespace a)) (String.list_ascii_of_string s).

(** A container with three cards whose markup already carries the marker of
    item "1". *)
Definition c3raised : ContainerEl :=
  mkContainerEl ["phone-stack-container"; "phone-1-active"] [] 3.

(** C3 as the specification words it: from Idle, meaning no stored
    selection, activating an item twice ends with no selection, the second
    activation emitting 'deactivated'. *)
Definition toggle_off_claim : Prop :=
  ∀ (c : ContainerEl) (w0 : World) (v : JsVal),
    constructor (Some c) = Normal w0 → cCards c ≠ 0%nat →
    toString v ∈ getPhoneNumbers → getActivePhone w0 = None →
    getActivePhone (activatePhone v (activatePhone v w0)) = None ∧
    "phoneDeactivated" ∈ evName <$> emittedBy (activatePhone v) (activatePhone v w0).

(** C7 as the specification words it: from Idle, meaning no stored
    selection, [cycleToNext()] activates "1"; from Active(X) it activates the
    item after X. *)
Definition cycle_claim : Prop :=
  ∀ (c : ContainerEl) (w0 : World) (acts : list Action),
    constructor (Some c) = Normal w0 → cCards c ≠ 0%nat →
    forallb ordinary acts = true →
    (getActivePhone (run acts w0) = None →
     getActivePhone (cycleToNext (run acts w0)) = Some "1") ∧
    (∀ X, X ∈ getPhoneNumbers → getActivePhone (run acts w0) = Some X →
          getActivePhone (cycleToNext (run acts w0)) = nextInOrder (Some X)).

(** * Proofs *)

(** ** Frame facts *)

Section forEach_facts.
Context {A B : Type} (g : World → B) (body : A → nat → World → World).
Hypothesis body_keeps : ∀ x i w, g (body x i w) = g w.

Lemma forEachFrom_keeps i l w : g (forEachFrom body i l w) = g w.
Proof.
  revert i w. induction l as [|x l IH]; intros i w; simpl; [done|].
  by rewrite IH.
Qed.
End forEach_facts.

Ltac keeps := unfold forEach; apply forEachFrom_keeps; done.

(** Closed decidable facts, by evaluation. *)
Ltac by_compute := apply (bool_decide_unpack _); vm_compute; exact I.

Ltac unfold_setters :=
  unfold dispatchEvent, emit, classList_add, classList_remove, set_activeCard,
    set_classList; simpl.

Lemma updateAriaStates_classList a w : classList (updateAriaStates a w) = classList w.
Proof. unfold updateAriaStates. keeps. Qed.
Lemma updateAriaStates_activeCard a w : activeCard (updateAriaStates a w) = activeCard w.
Proof. unfold updateAriaStates. keeps. Qed.
Lemma updateAriaStates_outputs a w : outputs (updateAriaStates a w) = outputs w.
Proof. unfold updateAriaStates. keeps. Qed.
Lemma updateAriaStates_overlays a w : overlays (updateAriaStates a w) = overlays w.
Proof. unfold updateAriaStates. keeps. Qed.
Lemma updateAriaStates_docListeners a w : docListeners (updateAriaStates a w) = docListeners w.
Proof. unfold updateAriaStates. keeps. Qed.
Lemma updateAriaStates_children a w : children (updateAriaStates a w) = children w.
Proof. unfold updateAriaStates. keeps. Qed.
Lemma updateAriaStates_outerClasses a w : outerClasses (updateAriaStates a w) = outerClasses w.
Proof. unfold updateAriaStates. keeps. Qed.

Create Rewrite HintDb frame.
#[local] Hint Rewrite updateAriaStates_classList updateAriaStates_activeCard
  updateAriaStates_outputs updateAriaStates_overlays updateAriaStates_docListeners
  updateAriaStates_children updateAriaStates_outerClasses : frame.

Lemma deactivateAll_classList w : classList (deactivateAll w) = cleared (classList w).
Proof. unfold deactivateAll. unfold_setters. by autorewrite with frame. Qed.
Lemma deactivateAll_activeCard w : activeCard (deactivateAll w) = None.
Proof. unfold deactivateAll. unfold_setters. by autorewrite with frame. Qed.
Lemma deactivateAll_outputs w :
  outputs (deactivateAll w) =
  outputs w ++ [Dispatched (mkCustomEvent "phoneDeactivated" [] None (cleared (classList w)))].
Proof. unfold deactivateAll. unfold_setters. by autorewrite with frame. Qed.
Lemma deactivateAll_overlays w : overlays (deactivateAll w) = overlays w.
Proof. unfold deactivateAll. unfold_setters. by autorewrite with frame. Qed.
Lemma deactivateAll_docListeners w : docListeners (deactivateAll w) = docListeners w.
Proof. unfold deactivateAll. unfold_setters. by autorewrite with frame. Qed.
Lemma deactivateAll_children w : children (deactivateAll w) = children w.
Proof. unfold deactivateAll. unfold_setters. by autorewrite with frame. Qed.
Lemma deactivateAll_outerClasses w : outerClasses (deactivateAll w) = outerClasses w.
Proof. unfold deactivateAll. unfold_setters. by autorewrite with frame. Qed.

#[local] Hint Rewrite deactivateAll_classList deactivateAll_activeCard deactivateAll_outputs
  deactivateAll_overlays deactivateAll_docListeners deactivateAll_children
  deactivateAll_outerClasses : frame.

Lemma togglePhone_off p w :
  cardClassOf p ∈ classList w → togglePhone p w = deactivateAll w.
Proof.
  intros Hin. unfold togglePhone, classList_contains.
  by rewrite bool_decide_eq_true_2.
Qed.

Section toggle_on.
Context (p : option string) (w : World).
Hypothesis absent : cardClassOf p ∉ classList w.

Lemma togglePhone_on_classList :
  classList (togglePhone p w) = marked (cardClassOf p) (classList w).
Proof.
  unfold togglePhone, classList_contains. rewrite bool_decide_eq_false_2 by done.
  unfold_setters. by autorewrite with frame.
Qed.
Lemma togglePhone_on_activeCard : activeCard (togglePhone p w) = p.
Proof.
  unfold togglePhone, classList_contains. rewrite bool_decide_eq_false_2 by done.
  unfold_setters. by autorewrite with frame.
Qed.
Lemma togglePhone_on_outputs :
  outputs (togglePhone p w) =
  outputs w ++
    [Dispatched (mkCustomEvent "phoneDeactivated" [] None (cleared (classList w)));
     Dispatched (mkCustomEvent "phoneActivated" [("phoneNumber", p)] p
                   (marked (cardClassOf p) (classList w)))].
Proof.
  unfold togglePhone, classList_contains. rewrite bool_decide_eq_false_2 by done.
  unfold_setters. autorewrite with frame. simpl.
  autorewrite with frame. by rewrite <- app_assoc.
Qed.
End toggle_on.

Lemma togglePhone_overlays p w : overlays (togglePhone p w) = overlays w.
Proof.
  unfold togglePhone. case_match; [by autorewrite with frame|].
  unfold_setters. by autorewrite with frame.
Qed.
Lemma togglePhone_docListeners p w : docListeners (togglePhone p w) = docListeners w.
Proof.
  unfold togglePhone. case_match; [by autorewrite with frame|].
  unfold_setters. by autorewrite with frame.
Qed.
Lemma togglePhone_children p w : children (togglePhone p w) = children w.
Proof.
  unfold togglePhone. case_match; [by autorewrite with frame|].
  unfold_setters. by autorewrite with frame.
Qed.
Lemma togglePhone_outerClasses p w : outerClasses (togglePhone p w) = outerClasses w.
Proof.
  unfold togglePhone. case_match; [by autorewrite with frame|].
  unfold_setters. by autorewrite with frame.
Qed.

(** ** Markers *)

Lemma markers_cleared l : filter (λ c, c ∈ activeClasses) (cleared l) = [].
Proof.
  unfold cleared. induction l as [|c l IH]; [done|].
  rewrite (filter_cons _ c). case_decide; [|done].
  rewrite filter_cons. by case_decide.
Qed.

Lemma markers_marked c l :
  c ∈ activeClasses → filter (λ c, c ∈ activeClasses) (marked c l) = [c].
Proof.
  intros Hc. unfold marked. case_bool_decide as Hin.
  - apply list_elem_of_filter in Hin as [Hn _]. done.
  - rewrite filter_app, markers_cleared. simpl.
    rewrite filter_cons, decide_True by done. done.
Qed.

Lemma markers_marked_other c l :
  c ∉ activeClasses → filter (λ c, c ∈ activeClasses) (marked c l) = [].
Proof.
  intros Hc. unfold marked. case_bool_decide as Hin; [apply markers_cleared|].
  rewrite filter_app, markers_cleared. simpl.
  rewrite filter_cons, decide_False by done. done.
Qed.

Lemma cardClassOf_valid x : x ∈ getPhoneNumbers → cardClassOf (Some x) ∈ activeClasses.
Proof.
  unfold getPhoneNumbers, activeClasses. intros Hx.
  repeat (apply elem_of_cons in Hx as [->|Hx]); [ | | | by apply elem_of_nil in Hx];
    by_compute.
Qed.

Lemma cardClassOf_null : cardClassOf None ∉ activeClasses.
Proof. by_compute. Qed.

Lemma cardClassOf_inj x y :
  x ∈ getPhoneNumbers → y ∈ getPhoneNumbers →
  cardClassOf (Some x) = cardClassOf (Some y) → x = y.
Proof.
  unfold getPhoneNumbers. intros Hx Hy.
  repeat (apply elem_of_cons in Hx as [->|Hx]); [ | | | by apply elem_of_nil in Hx];
    repeat (apply elem_of_cons in Hy as [->|Hy]); try (by apply elem_of_nil in Hy);
    vm_compute; congruence.
Qed.

(** After a toggle with a sound argument the state is tidy, whatever it was. *)
Lemma deactivateAll_Tidy w : Tidy (deactivateAll w).
Proof.
  unfold Tidy, markers. autorewrite with frame. split; [done|apply markers_cleared].
Qed.

Lemma togglePhone_Tidy p w : validId p → Tidy (togglePhone p w).
Proof.
  intros Hp. destruct (decide (cardClassOf p ∈ classList w)) as [Hin|Hout].
  - rewrite togglePhone_off by done. apply deactivateAll_Tidy.
  - unfold Tidy, markers.
    rewrite togglePhone_on_classList, togglePhone_on_activeCard by done.
    split; [done|]. destruct p as [x|]; simpl.
    + by apply markers_marked, cardClassOf_valid.
    + apply markers_marked_other, cardClassOf_null.
Qed.

Lemma Tidy_markers w : Tidy w → (length (markers w) ≤ 1)%nat.
Proof. intros [_ ->]. destruct (activeCard w); simpl; lia. Qed.

Lemma activation_Tidy a w : activation a = true → Tidy (step w a).
Proof.
  destruct a as [[x|]|v| | | | |]; simpl; try done; intros Hx%bool_decide_eq_true;
    by apply togglePhone_Tidy.
Qed.

(** ** The overlay heap *)

#[local] Instance sameOverlay_refl : Reflexive sameOverlay.
Proof. by intros el. Qed.
#[local] Instance sameOverlay_trans : Transitive sameOverlay.
Proof. intros a b c (?&?&?) (?&?&?). split_and!; congruence. Qed.
#[local] Instance sameButStyle_refl : Reflexive sameButStyle.
Proof. by intros el. Qed.
#[local] Instance sameButStyle_trans : Transitive sameButStyle.
Proof. intros a b c (?&?&?) (?&?&?). split_and!; congruence. Qed.

Lemma sameButStyle_sameOverlay el el' : sameButStyle el el' → sameOverlay el el'.
Proof. intros (?&Ha&?). split_and!; [done| |done]. by rewrite Ha. Qed.

Section forEach_alter.
Context (h : nat → Element → Element) (body : nat → nat → World → World).
Hypothesis body_alter : ∀ o i w, elems (body o i w) = alter (h i) o (elems w).

Lemma forEachFrom_alter_notin i l w o :
  o ∉ l → elems (forEachFrom body i l w) !! o = elems w !! o.
Proof.
  revert i w. induction l as [|x l IH]; intros i w Hnot; simpl; [done|].
  apply not_elem_of_cons in Hnot as [Hne Hnot].
  rewrite IH, body_alter by done. by rewrite list_lookup_alter_ne.
Qed.

Lemma forEachFrom_alter_in i l w j o :
  NoDup l → l !! j = Some o →
  elems (forEachFrom body i l w) !! o = h (i + j)%nat <$> elems w !! o.
Proof.
  revert i w j. induction l as [|x l IH]; intros i w j Hnd Hj; [done|].
  apply NoDup_cons in Hnd as [Hx Hnd]. destruct j as [|j]; simpl in *.
  - injection Hj as ->. rewrite forEachFrom_alter_notin, body_alter by done.
    by rewrite list_lookup_alter_eq, Nat.add_0_r.
  - rewrite (IH (S i) _ j), body_alter by done.
    rewrite list_lookup_alter_ne; [by replace (S i + j)%nat with (i + S j)%nat by lia|].
    intros ->. apply Hx. by eapply list_elem_of_lookup_2.
Qed.
End forEach_alter.

Section forEach_related.
Context (R : relation Element) `{!Reflexive R, !Transitive R}.
Context {A : Type} (body : A → nat → World → World).
Hypothesis body_related : ∀ x i w, Forall2 R (elems w) (elems (body x i w)).

Lemma forEachFrom_related i l w : Forall2 R (elems w) (elems (forEachFrom body i l w)).
Proof.
  revert i w. induction l as [|x l IH]; intros i w; simpl; [done|].
  etrans; [apply (body_related x i)|apply IH].
Qed.
End forEach_related.

Lemma alter_related (R : relation Element) `{!Reflexive R} f id (l : list Element) :
  (∀ el, R el (f el)) → Forall2 R l (alter f id l).
Proof.
  intros Hf. apply Forall2_alter_r; [done|].
  intros x y Hx Hy _. rewrite Hx in Hy. injection Hy as <-. apply Hf.
Qed.

Lemma setAttribute_related id k v w :
  k ≠ "data-phone" → Forall2 sameOverlay (elems w) (elems (setAttribute id k v w)).
Proof.
  intros Hk. apply alter_related; [apply _|]. intros el. split_and!; [done| |done].
  simpl. by rewrite lookup_insert_ne.
Qed.

Lemma setStyle_related id k v w :
  Forall2 sameButStyle (elems w) (elems (setStyle id k v w)).
Proof. apply alter_related; [apply _|]. by intros el. Qed.

Lemma updateAriaStates_related a w :
  Forall2 sameOverlay (elems w) (elems (updateAriaStates a w)).
Proof.
  unfold updateAriaStates, forEach. apply forEachFrom_related; [apply _..|].
  intros o i w'. etrans; [|by apply setAttribute_related].
  by apply setAttribute_related.
Qed.

Lemma updateAriaStates_lookup a w j o :
  NoDup (overlays w) → overlays w !! j = Some o →
  elems (updateAriaStates a w) !! o = ariaOf a j <$> elems w !! o.
Proof.
  intros Hnd Hj. unfold updateAriaStates, forEach.
  rewrite (forEachFrom_alter_in (ariaOf a) _) with (j := j); [done| |done..].
  intros o' i w'. simpl. by rewrite list_alter_alter_eq.
Qed.

Lemma deactivateAll_related w : Forall2 sameOverlay (elems w) (elems (deactivateAll w)).
Proof.
  apply (updateAriaStates_related None
           (set_activeCard None (classList_remove activeClasses w))).
Qed.

Lemma togglePhone_related p w : Forall2 sameOverlay (elems w) (elems (togglePhone p w)).
Proof.
  unfold togglePhone. case_match; [apply deactivateAll_related|].
  etrans; [apply deactivateAll_related|].
  apply (updateAriaStates_related p
           (set_activeCard p (classList_add (cardClassOf p) (deactivateAll w)))).
Qed.

(** ** Set-up instances *)

Lemma getAttribute_related o w w' :
  Forall2 sameOverlay (elems w) (elems w') →
  getAttribute o "data-phone" w' = getAttribute o "data-phone" w.
Proof.
  intros HR. unfold getAttribute. destruct (elems w !! o) as [el|] eqn:Hel.
  - destruct (Forall2_lookup_l _ _ _ _ _ HR Hel) as (el' & -> & _ & Ha & _). done.
  - apply lookup_ge_None in Hel. rewrite (Forall2_length _ _ _ HR) in Hel.
    apply lookup_ge_None in Hel. by rewrite Hel.
Qed.

Lemma Wired_related w w' :
  overlays w' = overlays w → Forall2 sameOverlay (elems w) (elems w') →
  Wired w → Wired w'.
Proof.
  intros Hov HR (Hnd & Htags & Hheap). split_and!.
  - by rewrite Hov.
  - rewrite <- Htags. unfold tags. rewrite Hov. apply list_fmap_ext.
    intros _ o _. by apply getAttribute_related.
  - apply Forall_lookup. intros id el' Hel'.
    destruct (Forall2_lookup_r _ _ _ _ _ HR Hel') as (el & Hel & _ & Ha & _).
    rewrite Ha. by eapply (Forall_lookup_1 _ _ _ _ Hheap).
Qed.

Lemma Wired_targetAttribute e w : Wired w → validId (targetAttribute e "data-phone" w).
Proof.
  intros (_ & _ & Hheap). unfold targetAttribute, getAttribute.
  destruct (target e) as [id| |]; [|done..].
  destruct (elems w !! id) as [el|] eqn:Hel; [|done].
  by eapply (Forall_lookup_1 _ _ _ _ Hheap).
Qed.

Lemma pretty_items :
  pretty (0 + 1)%nat = "1" ∧ pretty (1 + 1)%nat = "2" ∧ pretty (2 + 1)%nat = "3".
Proof. by vm_compute. Qed.

Lemma getAttribute_Some o k v w :
  getAttribute o k w = Some v → ∃ el, elems w !! o = Some el ∧ attrs el !! k = Some v.
Proof. unfold getAttribute. destruct (elems w !! o) as [el|]; [eauto|done]. Qed.

Lemma getAttribute_lookup o k w el :
  elems w !! o = Some el → getAttribute o k w = attrs el !! k.
Proof. intros Hel. unfold getAttribute. by rewrite Hel. Qed.

Lemma ariaOf_tag a j el : attrs (ariaOf a j el) !! "data-phone" = attrs el !! "data-phone".
Proof. unfold ariaOf. simpl. by rewrite !lookup_insert_ne. Qed.

Lemma ariaOf_pressed a j el :
  attrs (ariaOf a j el) !! "aria-pressed" =
  Some (boolToString (bool_decide (Some (pretty (j + 1)%nat) = a))).
Proof.
  unfold ariaOf. cbn [attrs set_attrs].
  by rewrite lookup_insert_ne, lookup_insert_eq.
Qed.

Lemma ariaOf_expanded a j el :
  attrs (ariaOf a j el) !! "aria-expanded" =
  Some (boolToString (bool_decide (Some (pretty (j + 1)%nat) = a))).
Proof. unfold ariaOf. cbn [attrs set_attrs]. by rewrite lookup_insert_eq. Qed.

Lemma updateAriaStates_view a w :
  Wired w → ariaView (updateAriaStates a w) = expectedAria a.
Proof.
  intros (Hnd & Htags & _). unfold tags in Htags.
  unfold ariaView. rewrite updateAriaStates_overlays.
  assert (L := updateAriaStates_lookup a w).
  destruct (overlays w) as [|o0 [|o1 [|o2 [|? ?]]]]; try discriminate.
  injection Htags as H0 H1 H2.
  apply getAttribute_Some in H0 as (e0 & He0 & T0).
  apply getAttribute_Some in H1 as (e1 & He1 & T1).
  apply getAttribute_Some in H2 as (e2 & He2 & T2).
  assert (L0 := L 0%nat o0 Hnd eq_refl).
  assert (L1 := L 1%nat o1 Hnd eq_refl).
  assert (L2 := L 2%nat o2 Hnd eq_refl).
  rewrite He0 in L0. rewrite He1 in L1. rewrite He2 in L2.
  destruct pretty_items as (P1 & P2 & P3).
  rewrite !fmap_cons, fmap_nil.
  rewrite !(getAttribute_lookup o0 _ _ _ L0), !(getAttribute_lookup o1 _ _ _ L1),
    !(getAttribute_lookup o2 _ _ _ L2).
  rewrite !ariaOf_tag, !ariaOf_pressed, !ariaOf_expanded, P1, P2, P3, T0, T1, T2.
  done.
Qed.

Lemma ariaView_ext w w' :
  overlays w' = overlays w → elems w' = elems w → ariaView w' = ariaView w.
Proof. intros Ho He. unfold ariaView, getAttribute. by rewrite Ho, He. Qed.

Lemma deactivateAll_Settled w : Wired w → Settled (deactivateAll w).
Proof.
  intros HW. split; [apply deactivateAll_Tidy|]. rewrite deactivateAll_activeCard.
  rewrite <- (updateAriaStates_view None
                (set_activeCard None (classList_remove activeClasses w))) by done.
  by apply ariaView_ext.
Qed.

Lemma deactivateAll_Wired w : Wired w → Wired (deactivateAll w).
Proof.
  apply Wired_related; [apply deactivateAll_overlays|apply deactivateAll_related].
Qed.

Lemma togglePhone_Wired p w : Wired w → Wired (togglePhone p w).
Proof.
  apply Wired_related; [apply togglePhone_overlays|apply togglePhone_related].
Qed.

Lemma togglePhone_Settled p w : Wired w → validId p → Settled (togglePhone p w).
Proof.
  intros HW Hp. split; [by apply togglePhone_Tidy|].
  destruct (decide (cardClassOf p ∈ classList w)) as [Hin|Hout].
  - rewrite togglePhone_off by done. by apply deactivateAll_Settled.
  - rewrite togglePhone_on_activeCard by done.
    pose (w1 := set_activeCard p (classList_add (cardClassOf p) (deactivateAll w))).
    rewrite <- (updateAriaStates_view p w1).
    + apply ariaView_ext; unfold togglePhone, classList_contains;
        by rewrite bool_decide_eq_false_2.
    + eapply Wired_related; [| |apply (deactivateAll_Wired w HW)]; done.
Qed.

(** ** Input events *)

(** Whatever an input event does, it does by running [togglePhone] on the
    target's item tag or [deactivateAll], some number of times. *)
Section dispatch_ind.
Context (P : World → Prop) (e : Event).
Hypothesis P_toggle : ∀ w, P w → P (togglePhone (targetAttribute e "data-phone" w) w).
Hypothesis P_deactivate : ∀ w, P w → P (deactivateAll w).

Lemma call_ind m w : P w → P (call m e w).1.
Proof.
  intros HP. destruct m; simpl; unfold handleKeyboard, handleClickOutside;
    repeat case_match; simpl; auto.
Qed.

Lemma invoke_ind ws l : P ws.1 → P (invoke e ws l).1.
Proof.
  intros HP. unfold invoke. case_bool_decide; [|done].
  destruct (lfn l) as [m|m k]; [done|].
  pose proof (call_ind m ws.1 HP) as Hc. by destruct (call m e ws.1).
Qed.

Lemma foldl_invoke_ind ls ws : P ws.1 → P (foldl (invoke e) ws ls).1.
Proof.
  revert ws. induction ls as [|l ls IH]; intros ws HP; simpl; [done|].
  by apply IH, invoke_ind.
Qed.

Lemma dispatch_ind w : P w → P (dispatch e w).
Proof.
  intros HP. unfold dispatch.
  pose proof (foldl_invoke_ind (listenersAt (target e) w) (w, false) HP) as H1.
  case_match; [done|]. by apply foldl_invoke_ind.
Qed.
End dispatch_ind.


(** ** Debug visualisation and layout *)

Lemma notifications_app os os' :
  notifications (os ++ os') = notifications os ++ notifications os'.
Proof. apply omap_app. Qed.

Lemma enableDebugMode_related w : Forall2 sameButStyle (elems w) (elems (enableDebugMode w)).
Proof.
  unfold enableDebugMode, forEach. unfold emit. simpl.
  apply forEachFrom_related; [apply _..|]. intros o i w'.
  etrans; [|apply setStyle_related]. etrans; [|apply setStyle_related].
  apply setStyle_related.
Qed.

Lemma disableDebugMode_related w : Forall2 sameButStyle (elems w) (elems (disableDebugMode w)).
Proof.
  unfold disableDebugMode, forEach. unfold emit, set_config. simpl.
  apply forEachFrom_related; [apply _..|]. intros o i w'.
  etrans; [|apply setStyle_related]. etrans; [|apply setStyle_related].
  apply setStyle_related.
Qed.

Lemma toggleDebugMode_related w : Forall2 sameButStyle (elems w) (elems (toggleDebugMode w)).
Proof.
  unfold toggleDebugMode. case_match.
  - apply (enableDebugMode_related (set_config _ w)).
  - apply (disableDebugMode_related (set_config _ w)).
Qed.

(** What the debug toggle leaves alone. *)
Lemma toggleDebugMode_frame w :
  classList (toggleDebugMode w) = classList w ∧
  activeCard (toggleDebugMode w) = activeCard w ∧
  overlays (toggleDebugMode w) = overlays w ∧
  docListeners (toggleDebugMode w) = docListeners w ∧
  notifications (outputs (toggleDebugMode w)) = notifications (outputs w).
Proof.
  unfold toggleDebugMode. case_match.
  - unfold enableDebugMode, emit, forEach. simpl.
    rewrite !forEachFrom_keeps by done. simpl.
    rewrite notifications_app. simpl. by rewrite app_nil_r.
  - unfold disableDebugMode, emit, set_config, forEach. simpl.
    rewrite !forEachFrom_keeps by done. simpl.
    rewrite notifications_app. simpl. by rewrite app_nil_r.
Qed.

Lemma getAttribute_sameButStyle o k w w' :
  Forall2 sameButStyle (elems w) (elems w') → getAttribute o k w' = getAttribute o k w.
Proof.
  intros HR. unfold getAttribute. destruct (elems w !! o) as [el|] eqn:Hel.
  - destruct (Forall2_lookup_l _ _ _ _ _ HR Hel) as (el' & -> & _ & Ha & _).
    simpl. by rewrite Ha.
  - apply lookup_ge_None in Hel. rewrite (Forall2_length _ _ _ HR) in Hel.
    apply lookup_ge_None in Hel. by rewrite Hel.
Qed.

Lemma ariaView_sameButStyle w w' :
  overlays w' = overlays w → Forall2 sameButStyle (elems w) (elems w') →
  ariaView w' = ariaView w.
Proof.
  intros Ho HR. unfold ariaView. rewrite Ho. apply list_fmap_ext. intros _ o _.
  by rewrite !(getAttribute_sameButStyle o _ w w').
Qed.

(** ** Cycling *)

Lemma cycleToNext_toggles w :
  ∃ p, p ∈ getPhoneNumbers ∧ cycleToNext w = togglePhone (Some p) w.
Proof.
  unfold cycleToNext, indexOf, getPhoneNumbers, activatePhone. simpl.
  repeat case_bool_decide; simpl; try done; eexists; (split; [|reflexivity]); by_compute.
Qed.

(** ** Reachable states of a set-up instance *)

Lemma togglePhone_StateInv p w : validId p → StateInv w → StateInv (togglePhone p w).
Proof.
  intros Hp [HW _]. split; [by apply togglePhone_Wired|right].
  by apply togglePhone_Settled.
Qed.

Lemma deactivateAll_StateInv w : StateInv w → StateInv (deactivateAll w).
Proof.
  intros [HW _]. split; [by apply deactivateAll_Wired|right].
  by apply deactivateAll_Settled.
Qed.

Lemma toggleDebugMode_StateInv w : StateInv w → StateInv (toggleDebugMode w).
Proof.
  intros [HW HS].
  destruct (toggleDebugMode_frame w) as (Hc & Ha & Ho & _ & Hn).
  pose proof (toggleDebugMode_related w) as HR. split.
  - eapply Wired_related; [done| |done].
    eapply Forall2_impl; [done|]. apply sameButStyle_sameOverlay.
  - destruct HS as [[Q1 Q2]|[[T1 T2] S2]]; [left|right].
    + split; congruence.
    + unfold Settled, Tidy, markers in *.
      rewrite Hc, Ha, (ariaView_sameButStyle w) by done. done.
Qed.

Lemma updateOverlayPositions_StateInv ps w :
  StateInv w → StateInv (updateOverlayPositions ps w).
Proof.
  unfold updateOverlayPositions. destruct ps as [ps|]; [|done].
  by case_bool_decide.
Qed.

Lemma dispatch_StateInv e w : StateInv w → StateInv (dispatch e w).
Proof.
  apply dispatch_ind.
  - intros w' HI. apply togglePhone_StateInv; [|done].
    apply Wired_targetAttribute, HI.
  - apply deactivateAll_StateInv.
Qed.

Lemma step_StateInv a w : ordinary a = true → StateInv w → StateInv (step w a).
Proof.
  destruct a as [[x|]|v| | |ps| |e]; simpl; try done.
  - intros Hx%bool_decide_eq_true. by apply togglePhone_StateInv.
  - intros Hx%bool_decide_eq_true. by apply togglePhone_StateInv.
  - intros _ HI. destruct (cycleToNext_toggles w) as (p & Hp & ->).
    by apply togglePhone_StateInv.
  - intros _. apply toggleDebugMode_StateInv.
  - intros _. apply updateOverlayPositions_StateInv.
  - intros _. apply dispatch_StateInv.
Qed.

Lemma run_StateInv acts w :
  forallb ordinary acts = true → StateInv w → StateInv (run acts w).
Proof.
  revert w. induction acts as [|a acts IH]; intros w Hall HI; [done|].
  simpl in Hall. apply andb_prop in Hall as [Ha Hall].
  apply IH; [done|]. by apply step_StateInv.
Qed.

(** A successful construction: the container is there and has cards. *)
Lemma construct_Some cfg c w0 :
  construct cfg (Some c) = Normal w0 → cCards c ≠ 0%nat → w0 = init (fresh cfg c).
Proof.
  unfold construct. intros Hc Hn. simpl in Hc.
  rewrite bool_decide_eq_false_2 in Hc by done. simpl in Hc. congruence.
Qed.

Lemma init_StateInv cfg c : StateInv (init (fresh cfg c)).
Proof.
  destruct cfg as [dbg out ws ls hov]. split.
  - destruct dbg, out; by_compute.
  - left. destruct dbg, out; by vm_compute.
Qed.

Lemma reachable_StateInv cfg c w0 acts :
  construct cfg (Some c) = Normal w0 → cCards c ≠ 0%nat →
  forallb ordinary acts = true → StateInv (run acts w0).
Proof.
  intros Hc Hn Hall. rewrite (construct_Some _ _ _ Hc Hn).
  apply run_StateInv; [done|apply init_StateInv].
Qed.

(** ** Histories *)

Lemma run_snoc acts a w : run (acts ++ [a]) w = step (run acts w) a.
Proof. unfold run. by rewrite foldl_snoc. Qed.

Lemma forallb_Forall {A} (f : A → bool) l :
  forallb f l = true ↔ Forall (λ x, f x = true) l.
Proof.
  induction l as [|x l IH]; simpl; [by split; [constructor|]|].
  rewrite andb_true_iff, Forall_cons. by rewrite IH.
Qed.

Lemma activations_Tidy acts w :
  acts ≠ [] → forallb activation acts = true → Tidy (run acts w).
Proof.
  destruct acts as [|a acts _] using rev_ind; [done|]. intros _ Hall.
  rewrite run_snoc. apply activation_Tidy.
  apply forallb_Forall, Forall_app in Hall as [_ Ha].
  by inversion Ha.
Qed.

Lemma validId_cases a :
  validId a → a ∈ [None; Some "1"; Some "2"; Some "3"].
Proof.
  destruct a as [x|]; simpl; [|intros _; by_compute].
  unfold getPhoneNumbers. intros Hx.
  repeat (apply elem_of_cons in Hx as [->|Hx]); [by_compute..|].
  by apply elem_of_nil in Hx.
Qed.

(** C1: along every sequence of activations by valid item identifiers,
    started in any state, after each transition the stored selection is none
    or one of the identifiers "1", "2", "3", and the container carries at most
    one presentation marker. *)
Theorem mutual_exclusion (w : World) (acts : list Action) (n : nat) :
  forallb activation acts = true → (0 < n ≤ length acts)%nat →
  getActivePhone (run (take n acts) w) ∈ [None; Some "1"; Some "2"; Some "3"] ∧
  (length (markers (run (take n acts) w)) ≤ 1)%nat.
Proof.
  intros Hall Hn.
  assert (Tidy (run (take n acts) w)) as HT.
  { apply activations_Tidy.
    - intros Hnil. apply (f_equal length) in Hnil. rewrite length_take in Hnil.
      simpl in Hnil. lia.
    - apply forallb_Forall, Forall_take. by apply forallb_Forall. }
  split; [apply validId_cases, HT|by apply Tidy_markers].
Qed.

Lemma mutual_exclusion_witness :
  getActivePhone (run (take 2 [CallActivatePhone (JNum 1); CallTogglePhone (Some "2")]) demo)
    ∈ [None; Some "1"; Some "2"; Some "3"] ∧
  (length (markers (run (take 2 [CallActivatePhone (JNum 1); CallTogglePhone (Some "2")])
                      demo)) ≤ 1)%nat.
Proof.
  apply (mutual_exclusion demo [CallActivatePhone (JNum 1); CallTogglePhone (Some "2")] 2).
  - reflexivity.
  - simpl. lia.
Defined.

(** ** Toggle-off *)

Lemma marked_contains c l : c ∈ marked c l.
Proof.
  unfold marked. case_bool_decide; [done|]. apply elem_of_app. right. by left.
Qed.

Lemma absent_when_unmarked x w :
  x ∈ getPhoneNumbers → markers w = [] → cardClassOf (Some x) ∉ classList w.
Proof.
  intros Hx Hm Hin. assert (cardClassOf (Some x) ∈ markers w) as Hc.
  { apply list_elem_of_filter. split; [by apply cardClassOf_valid|done]. }
  rewrite Hm in Hc. by apply elem_of_nil in Hc.
Qed.

Lemma emittedBy_deactivateAll w :
  evName <$> emittedBy deactivateAll w = ["phoneDeactivated"].
Proof.
  unfold emittedBy. by rewrite deactivateAll_outputs, drop_app_length.
Qed.

(** C3, amended: from Idle on a container that does not carry the marker
    class of item X, activating X makes X the active selection, and activating
    X again toggles it off: the query returns none and the second activation
    emits a 'deactivated' notification (and nothing else). *)
Theorem toggle_off (w : World) (v : JsVal) :
  toString v ∈ getPhoneNumbers → getActivePhone w = None →
  cardClassOf (Some (toString v)) ∉ classList w →
  getActivePhone (activatePhone v w) = Some (toString v) ∧
  getActivePhone (activatePhone v (activatePhone v w)) = None ∧
  evName <$> emittedBy (activatePhone v) (activatePhone v w) = ["phoneDeactivated"].
Proof.
  intros Hv _ Hout. unfold getActivePhone, activatePhone.
  assert (cardClassOf (Some (toString v)) ∈ classList (togglePhone (Some (toString v)) w))
    as Hin by (rewrite togglePhone_on_classList by done; apply marked_contains).
  split_and!.
  - by rewrite togglePhone_on_activeCard.
  - by rewrite (togglePhone_off _ _ Hin), deactivateAll_activeCard.
  - unfold emittedBy. rewrite (togglePhone_off _ _ Hin).
    apply emittedBy_deactivateAll.
Qed.

Lemma toggle_off_witness :
  getActivePhone (activatePhone (JNum 2) demo) = Some (toString (JNum 2)) ∧
  getActivePhone (activatePhone (JNum 2) (activatePhone (JNum 2) demo)) = None ∧
  evName <$> emittedBy (activatePhone (JNum 2)) (activatePhone (JNum 2) demo)
    = ["phoneDeactivated"].
Proof.
  apply (toggle_off demo (JNum 2)).
  - by_compute.
  - by vm_compute.
  - by_compute.
Defined.

(** C3 as worded fails: an instance built on a container whose markup
    already carries [phone-1-active] is Idle, yet there the first
    [activatePhone(1)] finds the class and toggles it off, and the second one
    activates: the selection ends as "1". *)
Lemma toggle_off_counterexample : ¬ toggle_off_claim.
Proof.
  intros Hclaim.
  destruct (Hclaim c3raised (init (fresh sourceConfig c3raised)) (JNum 1))
    as [Ha _]; [by vm_compute|by vm_compute|by_compute|by vm_compute|].
  vm_compute in Ha. discriminate.
Qed.

(** ** Queries *)

(** C10: [isPhoneActive(x)] is true exactly when [getActivePhone()] returns
    the string form of [x]; so two arguments with the same string form, such
    as the number 2 and the string "2", get the same answer. *)
Theorem isPhoneActive_getActivePhone (w : World) (x : JsVal) :
  (isPhoneActive x w = true ↔ getActivePhone w = Some (toString x)) ∧
  (∀ y, toString y = toString x → isPhoneActive y w = isPhoneActive x w) ∧
  isPhoneActive (JNum 2) w = isPhoneActive (JStr "2") w.
Proof.
  unfold isPhoneActive, getActivePhone. split_and!.
  - apply bool_decide_eq_true.
  - by intros y ->.
  - done.
Qed.

(** ** Construction *)

(** C6: construction returns normally for every container element, with or
    without cards, but not for a missing container: the constructor reads
    [container.querySelectorAll] before its guard tests [container], so
    [new StackedPhones(null)] throws. *)
Theorem constructor_null_throws :
  (∀ c, ∃ w, constructor (Some c) = Normal w) ∧
  (∃ err, constructor None = Throw err).
Proof.
  split.
  - intros c. unfold constructor, construct. case_match; eauto.
  - by eexists.
Qed.

(** ** Cycling through the items *)

Lemma cycleToNext_Tidy w : Tidy (cycleToNext w).
Proof.
  destruct (cycleToNext_toggles w) as (p & Hp & ->). by apply togglePhone_Tidy.
Qed.

Lemma cycleToNext_next w :
  Tidy w → getActivePhone (cycleToNext w) = nextInOrder (getActivePhone w).
Proof.
  intros [Hv Hm]. unfold getActivePhone in *.
  assert (∀ y, y ∈ getPhoneNumbers → Some y ≠ activeCard w →
               cardClassOf (Some y) ∉ classList w) as Hout.
  { intros y Hy Hne Hin. assert (cardClassOf (Some y) ∈ markers w) as Hc.
    { apply list_elem_of_filter. split; [by apply cardClassOf_valid|done]. }
    rewrite Hm in Hc. destruct (activeCard w) as [x|]; simpl in *.
    - apply list_elem_of_singleton in Hc. apply Hne. f_equal.
      by apply cardClassOf_inj.
    - by apply elem_of_nil in Hc. }
  apply validId_cases in Hv.
  unfold cycleToNext, indexOf, getPhoneNumbers, activatePhone in *.
  repeat (apply elem_of_cons in Hv as [Hv|Hv]); [..|by apply elem_of_nil in Hv];
    rewrite Hv in *; simpl;
    rewrite togglePhone_on_activeCard; try done; apply Hout; (by_compute || done).
Qed.

Lemma iter_next_mod n :
  Nat.iter (S n) nextInOrder None = getPhoneNumbers !! (n `mod` 3)%nat.
Proof.
  induction n as [|n IH]; [done|].
  change (Nat.iter (S (S n)) nextInOrder None)
    with (nextInOrder (Nat.iter (S n) nextInOrder None)).
  rewrite IH. replace (S n) with (n + 1)%nat by lia.
  rewrite Nat.Div0.add_mod. pose proof (Nat.mod_upper_bound n 3).
  destruct (n `mod` 3)%nat as [|[|[|k]]]; [done..|lia].
Qed.

Lemma cycleToNext_toggles_next w :
  cycleToNext w = togglePhone (nextInOrder (activeCard w)) w.
Proof.
  unfold cycleToNext, indexOf, getPhoneNumbers, nextInOrder, activatePhone.
  destruct (activeCard w) as [x|]; simpl; [|done].
  repeat case_bool_decide; simplify_eq; done.
Qed.

(** C7, amended: provided the container does not already carry the marker
    class of the item to be activated, [cycleToNext()] from Idle activates
    "1", and from Active(X) activates the item after X in the order "1", "2",
    "3", wrapping from "3" to "1"; afterwards marker and selection agree, so
    that, from Idle, the k-th call (k = 1, 2, ...) leaves the items selected
    in order, round after round. *)
Theorem cycleToNext_in_order (w : World) :
  cardClassOf (nextInOrder (getActivePhone w)) ∉ classList w →
  (getActivePhone w = None → getActivePhone (cycleToNext w) = Some "1") ∧
  (getActivePhone w = Some "1" → getActivePhone (cycleToNext w) = Some "2") ∧
  (getActivePhone w = Some "2" → getActivePhone (cycleToNext w) = Some "3") ∧
  (getActivePhone w = Some "3" → getActivePhone (cycleToNext w) = Some "1") ∧
  Tidy (cycleToNext w) ∧
  (getActivePhone w = None →
   ∀ k, getActivePhone (Nat.iter (S k) cycleToNext w) = getPhoneNumbers !! (k `mod` 3)%nat).
Proof.
  intros Hout.
  assert (getActivePhone (cycleToNext w) = nextInOrder (getActivePhone w)) as Hn.
  { unfold getActivePhone in *. rewrite cycleToNext_toggles_next.
    by rewrite togglePhone_on_activeCard. }
  split_and!; try (intros Ha; rewrite Hn, Ha; reflexivity).
  - apply cycleToNext_Tidy.
  - intros Ha k. rewrite <- iter_next_mod, <- Ha.
    assert (Tidy (Nat.iter (S k) cycleToNext w) ∧
            getActivePhone (Nat.iter (S k) cycleToNext w)
            = Nat.iter (S k) nextInOrder (getActivePhone w)) as [_ ?]; [|done].
    induction k as [|k [IT IH]]; [split; [apply cycleToNext_Tidy|done]|].
    split; [apply cycleToNext_Tidy|].
    change (Nat.iter (S (S k)) cycleToNext w) with (cycleToNext (Nat.iter (S k) cycleToNext w)).
    rewrite (cycleToNext_next _ IT), IH. done.
Qed.

Lemma cycleToNext_in_order_witness :
  (getActivePhone demo = None → getActivePhone (cycleToNext demo) = Some "1") ∧
  (getActivePhone demo = Some "1" → getActivePhone (cycleToNext demo) = Some "2") ∧
  (getActivePhone demo = Some "2" → getActivePhone (cycleToNext demo) = Some "3") ∧
  (getActivePhone demo = Some "3" → getActivePhone (cycleToNext demo) = Some "1") ∧
  Tidy (cycleToNext demo) ∧
  (getActivePhone demo = None →
   ∀ k, getActivePhone (Nat.iter (S k) cycleToNext demo)
        = getPhoneNumbers !! (k `mod` 3)%nat).
Proof. apply (cycleToNext_in_order demo). by_compute. Defined.

(** C7 as worded fails: an instance built on a container whose markup
    already carries [phone-1-active] is Idle, yet there [cycleToNext()] finds
    the class, toggles it off and leaves the selection none. *)
Lemma cycle_counterexample : ¬ cycle_claim.
Proof.
  intros Hclaim.
  destruct (Hclaim c3raised (init (fresh sourceConfig c3raised)) [])
    as [Ha _]; [by vm_compute..|].
  specialize (Ha ltac:(by vm_compute)). vm_compute in Ha. discriminate.
Qed.

(** ** Consistency of marker, flags and selection *)

(** Every transition but teardown keeps marker, flags and selection
    consistent: on an instance set up by the constructor and driven by ordinary
    operations (activations by valid identifiers, cycling, input events of
    any kind, the debug and layout setters), once a transition has completed
    (a notification has been emitted) the container carries exactly the
    marker of the stored selection (none when Idle), and the overlays, one per
    item and in order, carry pressed and expanded flags that are true exactly
    on the overlay whose identifier is the selection. *)
Theorem marker_and_flags_consistent (c : ContainerEl) (w0 : World) (acts : list Action) :
  constructor (Some c) = Normal w0 → cCards c ≠ 0%nat →
  forallb ordinary acts = true →
  notifications (outputs (run acts w0)) ≠ [] →
  markers (run acts w0) = markerOf (getActivePhone (run acts w0)) ∧
  ariaView (run acts w0) = expectedAria (getActivePhone (run acts w0)).
Proof.
  intros Hc Hn Hall Hem.
  destruct (reachable_StateInv _ _ _ _ Hc Hn Hall) as [_ [[Hq _]|[[_ Hm] Ha]]]; done.
Qed.

Lemma marker_and_flags_consistent_witness :
  markers (run [CallActivatePhone (JNum 2); Input (mkEvent Click "" (TOverlay 2))] demo)
  = markerOf (getActivePhone
                (run [CallActivatePhone (JNum 2); Input (mkEvent Click "" (TOverlay 2))] demo)) ∧
  ariaView (run [CallActivatePhone (JNum 2); Input (mkEvent Click "" (TOverlay 2))] demo)
  = expectedAria (getActivePhone
                    (run [CallActivatePhone (JNum 2); Input (mkEvent Click "" (TOverlay 2))] demo)).
Proof.
  apply (marker_and_flags_consistent c3 demo
           [CallActivatePhone (JNum 2); Input (mkEvent Click "" (TOverlay 2))]).
  - by vm_compute.
  - by vm_compute.
  - by vm_compute.
  - by_compute.
Defined.

(** ** Switching between items *)

Lemma reachable_active cfg c w0 acts X :
  construct cfg (Some c) = Normal w0 → cCards c ≠ 0%nat →
  forallb ordinary acts = true → activeCard (run acts w0) = Some X →
  Wired (run acts w0) ∧ X ∈ getPhoneNumbers ∧ markers (run acts w0) = [cardClassOf (Some X)].
Proof.
  intros Hc Hn Hall Ha.
  destruct (reachable_StateInv _ _ _ _ Hc Hn Hall) as [HW [[_ Hq]|[[Hv Hm] _]]].
  - congruence.
  - rewrite Ha in Hv, Hm. done.
Qed.

Lemma absent_when_other x y w :
  x ∈ getPhoneNumbers → y ∈ getPhoneNumbers → y ≠ x →
  markers w = [cardClassOf (Some x)] → cardClassOf (Some y) ∉ classList w.
Proof.
  intros Hx Hy Hne Hm Hin. assert (cardClassOf (Some y) ∈ markers w) as Hc.
  { apply list_elem_of_filter. split; [by apply cardClassOf_valid|done]. }
  rewrite Hm in Hc. apply list_elem_of_singleton in Hc.
  by apply Hne, cardClassOf_inj.
Qed.

Lemma expectedAria_pressed x a :
  x ∈ getPhoneNumbers →
  match head (filter (λ t, t.1.1 = Some x) (expectedAria a)) with
  | Some t => t.1.2
  | None => None
  end = Some (boolToString (bool_decide (Some x = a))).
Proof.
  unfold getPhoneNumbers, expectedAria. intros Hx.
  repeat (apply elem_of_cons in Hx as [->|Hx]); [done..|].
  by apply elem_of_nil in Hx.
Qed.

(** C2, amended: from Active(X), activating another item Y goes through
    [deactivateAll]: a 'deactivated' notification is emitted first, at a
    moment when the stored selection is none, and then one 'activated'
    notification carrying Y; afterwards the query returns Y, the pressed flag
    is false on X's overlay and true on Y's. *)
Theorem switch_via_deactivate (c : ContainerEl) (w0 : World) (acts : list Action)
    (X Y : string) :
  constructor (Some c) = Normal w0 → cCards c ≠ 0%nat →
  forallb ordinary acts = true →
  getActivePhone (run acts w0) = Some X → Y ∈ getPhoneNumbers → Y ≠ X →
  (λ ev, (evName ev, evDetail ev, evActiveCard ev))
    <$> emittedBy (activatePhone (JStr Y)) (run acts w0)
    = [("phoneDeactivated", [], None);
       ("phoneActivated", [("phoneNumber", Some Y)], Some Y)] ∧
  getActivePhone (activatePhone (JStr Y) (run acts w0)) = Some Y ∧
  ariaPressed X (activatePhone (JStr Y) (run acts w0)) = Some "false" ∧
  ariaPressed Y (activatePhone (JStr Y) (run acts w0)) = Some "true".
Proof.
  intros Hc Hn Hall Ha HY Hne.
  destruct (reachable_active _ _ _ _ _ Hc Hn Hall Ha) as (HW & HX & Hm).
  pose proof (absent_when_other _ _ _ HX HY Hne Hm) as Hout.
  pose proof (togglePhone_Settled (Some Y) _ HW HY) as [_ Hview].
  unfold getActivePhone, activatePhone, ariaPressed, emittedBy in *. simpl.
  rewrite togglePhone_on_activeCard in Hview by done.
  rewrite togglePhone_on_outputs, togglePhone_on_activeCard, drop_app_length by done.
  rewrite Hview, !expectedAria_pressed by done.
  split_and!; [done..| |].
  - rewrite bool_decide_eq_false_2; [done|congruence].
  - by rewrite bool_decide_eq_true_2.
Qed.

Lemma switch_via_deactivate_witness :
  (λ ev, (evName ev, evDetail ev, evActiveCard ev))
    <$> emittedBy (activatePhone (JStr "2")) (run [CallActivatePhone (JNum 1)] demo)
    = [("phoneDeactivated", [], None);
       ("phoneActivated", [("phoneNumber", Some "2")], Some "2")] ∧
  getActivePhone (activatePhone (JStr "2") (run [CallActivatePhone (JNum 1)] demo)) = Some "2" ∧
  ariaPressed "1" (activatePhone (JStr "2") (run [CallActivatePhone (JNum 1)] demo))
    = Some "false" ∧
  ariaPressed "2" (activatePhone (JStr "2") (run [CallActivatePhone (JNum 1)] demo))
    = Some "true".
Proof.
  apply (switch_via_deactivate c3 demo [CallActivatePhone (JNum 1)] "1" "2").
  - by vm_compute.
  - by vm_compute.
  - by vm_compute.
  - by vm_compute.
  - by_compute.
  - by_compute.
Defined.

(** C2 as worded fails: switching from "1" to "2" does emit a 'deactivated'
    notification. *)
Lemma direct_switch_counterexample : ¬ direct_switch_claim.
Proof.
  intros Hclaim.
  destruct (Hclaim c3 demo [CallActivatePhone (JNum 1)] "1" "2")
    as (_ & Hnone & _); [by vm_compute..|by_compute|by_compute|].
  vm_compute in Hnone. apply Forall_inv in Hnone. by apply Hnone.
Qed.

(** ** Listeners never go away *)

(** Removing a prototype method removes nothing from a list of listeners
    that all hold bound functions. *)
Lemma removeListener_bound ty m ls :
  forallb isBound ls = true → removeListener (mkListener ty (Proto m)) ls = ls.
Proof.
  unfold removeListener. induction ls as [|l ls IH]; simpl; [done|].
  intros [Hl Hls]%andb_prop. rewrite filter_cons, decide_True, IH; [done..|].
  intros ->. done.
Qed.

Lemma destroy_docListeners w :
  forallb isBound (docListeners w) = true → docListeners (destroy w) = docListeners w.
Proof.
  intros Hb. unfold destroy, emit, set_activeCard, set_overlays. simpl.
  case_match; unfold document_removeEventListener; simpl; unfold forEach;
    rewrite ?forEachFrom_keeps by done; [|done].
  by apply removeListener_bound.
Qed.

Lemma dispatch_docListeners e w : docListeners (dispatch e w) = docListeners w.
Proof.
  apply (dispatch_ind (λ w', docListeners w' = docListeners w)); [| |done].
  - intros w' <-. apply togglePhone_docListeners.
  - intros w' <-. apply deactivateAll_docListeners.
Qed.

Lemma step_docListeners a w :
  forallb isBound (docListeners w) = true → docListeners (step w a) = docListeners w.
Proof.
  intros Hb. destruct a as [p|v| | |ps| |e]; simpl.
  - apply togglePhone_docListeners.
  - apply togglePhone_docListeners.
  - destruct (cycleToNext_toggles w) as (p & _ & ->). apply togglePhone_docListeners.
  - apply toggleDebugMode_frame.
  - unfold updateOverlayPositions. by repeat case_match.
  - by apply destroy_docListeners.
  - apply dispatch_docListeners.
Qed.

Lemma run_docListeners acts w :
  forallb isBound (docListeners w) = true → docListeners (run acts w) = docListeners w.
Proof.
  revert w. induction acts as [|a acts IH]; intros w Hb; [done|]. simpl.
  rewrite IH; rewrite step_docListeners; done.
Qed.

Lemma init_docListeners cfg c :
  docListeners (init (fresh cfg c)) =
  if enableClickOutside cfg then [mkListener Click (Bound HandleClickOutside 9)] else [].
Proof. destruct cfg as [[] [] ? ? ?]; by vm_compute. Qed.

Lemma reachable_docListeners cfg c w0 acts :
  construct cfg (Some c) = Normal w0 → cCards c ≠ 0%nat →
  docListeners (run acts w0) =
  if enableClickOutside cfg then [mkListener Click (Bound HandleClickOutside 9)] else [].
Proof.
  intros Hc Hn. rewrite (construct_Some _ _ _ Hc Hn), run_docListeners;
    rewrite init_docListeners; by case_match.
Qed.

(** ** Outside clicks *)

Lemma truthy_valid X : X ∈ getPhoneNumbers → truthy (Some X) = true.
Proof.
  unfold getPhoneNumbers. intros HX.
  repeat (apply elem_of_cons in HX as [->|HX]); [done..|]. by apply elem_of_nil in HX.
Qed.

(** C8, amended: a click outside the root dismisses exactly when dismissal
    was enabled when the listeners were bound, the target lies inside no
    element of class [phone-stack-container] at all (the root's or any
    other), and there is a non-empty selection, as there is in every
    Active(X); it then runs [deactivateAll], which leaves the instance Idle
    and emits one 'deactivated' notification. In every other case, dismissal
    disabled included, the click changes nothing and emits nothing. *)
Theorem outside_click (cfg : Config) (c : ContainerEl) (w0 : World) (acts : list Action)
    (e : Event) (chain : list (list string)) :
  construct cfg (Some c) = Normal w0 → cCards c ≠ 0%nat →
  target e = TOutside chain →
  dispatch e (run acts w0) =
    (if enableClickOutside cfg && bool_decide (etype e = Click)
        && negb (existsb (hasClass "phone-stack-container") chain)
        && truthy (getActivePhone (run acts w0))
     then deactivateAll (run acts w0)
     else run acts w0) ∧
  getActivePhone (deactivateAll (run acts w0)) = None ∧
  evName <$> emittedBy deactivateAll (run acts w0) = ["phoneDeactivated"] ∧
  (∀ X, X ∈ getPhoneNumbers → truthy (Some X) = true).
Proof.
  intros Hc Hn Ht. split_and!;
    [|apply deactivateAll_activeCard|apply emittedBy_deactivateAll|apply truthy_valid].
  pose proof (reachable_docListeners _ _ _ acts Hc Hn) as Hd.
  unfold dispatch, listenersAt, getActivePhone. rewrite Ht. simpl. rewrite Hd.
  destruct (enableClickOutside cfg); [|done]. simpl.
  unfold invoke. simpl. case_bool_decide as Hty.
  - rewrite bool_decide_eq_true_2 by done. simpl.
    unfold handleClickOutside, closest. rewrite Ht.
    by destruct (negb _ && truthy _).
  - rewrite bool_decide_eq_false_2 by done. done.
Qed.

Lemma outside_click_witness :
  dispatch (mkEvent Click "" (TOutside [["page"]])) (run [CallActivatePhone (JNum 1)] demo) =
    (if enableClickOutside sourceConfig
        && bool_decide (etype (mkEvent Click "" (TOutside [["page"]])) = Click)
        && negb (existsb (hasClass "phone-stack-container") [["page"]])
        && truthy (getActivePhone (run [CallActivatePhone (JNum 1)] demo))
     then deactivateAll (run [CallActivatePhone (JNum 1)] demo)
     else run [CallActivatePhone (JNum 1)] demo) ∧
  getActivePhone (deactivateAll (run [CallActivatePhone (JNum 1)] demo)) = None ∧
  evName <$> emittedBy deactivateAll (run [CallActivatePhone (JNum 1)] demo)
    = ["phoneDeactivated"] ∧
  (∀ X, X ∈ getPhoneNumbers → truthy (Some X) = true).
Proof.
  apply (outside_click sourceConfig c3 demo [CallActivatePhone (JNum 1)]
           (mkEvent Click "" (TOutside [["page"]])) [["page"]]).
  - by vm_compute.
  - by vm_compute.
  - reflexivity.
Defined.

(** C8 as worded fails: with "1" active, a click on a card of another
    component, outside this component's root but inside the other's
    [phone-stack-container], dismisses nothing. *)
Lemma outside_click_counterexample : ¬ outside_click_claim.
Proof.
  intros Hclaim.
  pose proof (Hclaim sourceConfig c3 demo [CallActivatePhone (JNum 1)]
                (mkEvent Click "" (TOutside [["phone-card"]; ["phone-stack-container"]]))
                [["phone-card"]; ["phone-stack-container"]] "1") as H.
  simpl in H. destruct H as [H _]; [by vm_compute..|by_compute|].
  vm_compute in H. discriminate.
Qed.

(** ** Teardown *)

(** C4: [destroy()] hands [removeEventListener] the prototype methods, not
    the bound functions that [bindEvents] registered, so nothing is detached:
    after teardown of a set-up instance the document still holds the
    outside-click listener and each overlay element still holds its click,
    touchend and keydown listeners, although the overlays have left the
    container and the instance has dropped them. Input events still change
    state after teardown: once an item has been activated through the public
    API, an outside click dismisses it and emits 'deactivated'; a click
    delivered to a detached overlay activates its item. *)
Theorem destroy_detaches_nothing :
  docListeners (destroy demo) = [mkListener Click (Bound HandleClickOutside 9)] ∧
  listeners <$> elems (destroy demo) = listeners <$> elems demo ∧
  length <$> (listeners <$> elems (destroy demo)) = [3; 3; 3]%nat ∧
  children (destroy demo) = [] ∧ overlays (destroy demo) = [] ∧
  getActivePhone (activatePhone (JStr "1") (destroy demo)) = Some "1" ∧
  getActivePhone (dispatch outsideClick (activatePhone (JStr "1") (destroy demo))) = None ∧
  evName <$> emittedBy (dispatch outsideClick) (activatePhone (JStr "1") (destroy demo))
    = ["phoneDeactivated"] ∧
  getActivePhone (dispatch (mkEvent Click "" (TOverlay 0)) (destroy demo)) = Some "1".
Proof. split_and!; by vm_compute. Qed.

(** ** Construction without cards *)









#[local] Instance anyPair_refl : Reflexive anyPair.
Proof. by intros el. Qed.
#[local] Instance anyPair_trans : Transitive anyPair.
Proof. by intros a b c _ _. Qed.










(** ** Where the guarantees stop *)

(** [activatePhone] takes any string. An identifier outside the item set is
    stored as the selection, and its marker is not among those that
    [deactivateAll] clears, so it stays when another item is activated. *)
Lemma foreign_identifier_stays :
  getActivePhone (run [CallActivatePhone (JStr "4")] demo) = Some "4" ∧
  classList (run [CallActivatePhone (JStr "4"); CallActivatePhone (JStr "1")] demo)
  = ["phone-stack-container"; "phone-4-active"; "phone-1-active"].
Proof. split; by vm_compute. Qed.

(** [destroy] resets the selection but leaves the marker on the container. *)
Lemma destroy_keeps_marker :
  getActivePhone (destroy (activatePhone (JStr "1") demo)) = None ∧
  classList (destroy (activatePhone (JStr "1") demo))
  = ["phone-stack-container"; "phone-1-active"].
Proof. split; by vm_compute. Qed.

(** * The rest of the class *)

(** ** Every operation is built from five *)

Section step_ind.
Context (P : World → Prop).
Hypothesis P_toggle : ∀ p w, P w → P (togglePhone p w).
Hypothesis P_deactivate : ∀ w, P w → P (deactivateAll w).
Hypothesis P_debug : ∀ w, P w → P (toggleDebugMode w).
Hypothesis P_positions : ∀ ps w, P w → P (updateOverlayPositions ps w).
Hypothesis P_destroy : ∀ w, P w → P (destroy w).

Lemma step_ind a w : P w → P (step w a).
Proof.
  destruct a as [p|v| | |ps| |e]; simpl; auto.
  - apply P_toggle.
  - destruct (cycleToNext_toggles w) as (p & _ & ->). apply P_toggle.
  - apply dispatch_ind; auto.
Qed.

Lemma run_ind acts w : P w → P (run acts w).
Proof.
  revert w. induction acts as [|a acts IH]; intros w HP; [done|].
  simpl. by apply IH, step_ind.
Qed.
End step_ind.

Lemma updateOverlayPositions_keeps {B} (g : World → B) ps w :
  (∀ f w', g (set_config f w') = g w') → g (updateOverlayPositions ps w) = g w.
Proof. intros Hg. unfold updateOverlayPositions. by repeat case_match. Qed.

(** ** The overlays keep their shape *)

Lemma shape_related l l' :
  Forall2 sameOverlay l l' → overlayShape <$> l' = overlayShape <$> l.
Proof.
  induction 1 as [|el el' l l' (Hc & Ha & Hl) _ IH]; [done|].
  rewrite !fmap_cons, IH. unfold overlayShape. by rewrite Hc, Ha, Hl.
Qed.

Lemma step_related a w :
  alive a = true → Forall2 sameOverlay (elems w) (elems (step w a)).
Proof.
  destruct a as [p|v| | |ps| |e]; simpl; try done; intros _.
  - apply togglePhone_related.
  - apply togglePhone_related.
  - destruct (cycleToNext_toggles w) as (p & _ & ->). apply togglePhone_related.
  - eapply Forall2_impl; [apply toggleDebugMode_related|].
    apply sameButStyle_sameOverlay.
  - by rewrite (updateOverlayPositions_keeps elems).
  - apply (dispatch_ind (λ w', Forall2 sameOverlay (elems w) (elems w'))); [| |done].
    + intros w' HR. etrans; [done|apply togglePhone_related].
    + intros w' HR. etrans; [done|apply deactivateAll_related].
Qed.

Lemma run_related acts w :
  forallb alive acts = true → Forall2 sameOverlay (elems w) (elems (run acts w)).
Proof.
  revert w. induction acts as [|a acts IH]; intros w Hall; [done|].
  simpl in Hall. apply andb_prop in Hall as [Ha Hall]. simpl.
  etrans; [by apply step_related|by apply IH].
Qed.

Lemma init_shape cfg c : overlayShape <$> elems (init (fresh cfg c)) = setUpShape.
Proof. destruct cfg as [[] [] ? ? ?]; by vm_compute. Qed.

Lemma reachable_shape cfg c w0 acts :
  construct cfg (Some c) = Normal w0 → cCards c ≠ 0%nat →
  forallb alive acts = true →
  overlayShape <$> elems (run acts w0) = setUpShape.
Proof.
  intros Hc Hn Hall. rewrite (construct_Some _ _ _ Hc Hn).
  rewrite (shape_related _ _ (run_related acts _ Hall)). apply init_shape.
Qed.

(** The overlay at [i] in a heap of set-up shape. *)
Lemma setUpShape_lookup w i :
  overlayShape <$> elems w = setUpShape → (i < 3)%nat →
  ∃ el, elems w !! i = Some el ∧
    attrs el !! "data-phone" = Some (pretty (i + 1)%nat) ∧
    listeners el = [mkListener Click (Bound HandleInteraction (3 * i));
                    mkListener TouchEnd (Bound HandleTouchInteraction (3 * i + 1));
                    mkListener KeyDown (Bound HandleKeyboard (3 * i + 2))].
Proof.
  intros Hs Hi.
  assert ((overlayShape <$> elems w) !! i = setUpShape !! i) as Hl by by rewrite Hs.
  rewrite list_lookup_fmap in Hl.
  destruct pretty_items as (P1 & P2 & P3).
  destruct i as [|[|[|i]]]; [..|lia];
    (destruct (elems w !! _) as [el|]; [|done]); exists el;
    injection Hl as Hc Ha Hls; rewrite Ha, Hls, ?P1, ?P2, ?P3; done.
Qed.

(** ** Input on an overlay *)

Lemma invoke_mismatch e ws l : ltype l ≠ etype e → invoke e ws l = ws.
Proof. intros Hne. unfold invoke. by rewrite bool_decide_eq_false_2. Qed.

Lemma invoke_bound e ws ty m k :
  ty = etype e →
  invoke e ws (mkListener ty (Bound m k)) = ((call m e ws.1).1, (call m e ws.1).2 || ws.2).
Proof.
  intros Hty. unfold invoke. cbn [ltype lfn]. rewrite bool_decide_eq_true_2 by done.
  by destruct (call m e ws.1).
Qed.

Lemma dispatch_overlay_toggle w e i el k1 k2 k3 x :
  target e = TOverlay i → elems w !! i = Some el →
  listeners el = [mkListener Click (Bound HandleInteraction k1);
                  mkListener TouchEnd (Bound HandleTouchInteraction k2);
                  mkListener KeyDown (Bound HandleKeyboard k3)] →
  attrs el !! "data-phone" = Some x → activating e = true →
  dispatch e w = togglePhone (Some x) w.
Proof.
  intros Ht Hel Hls Hx Hact.
  assert (targetAttribute e "data-phone" w = Some x) as Hattr.
  { unfold targetAttribute, getAttribute. by rewrite Ht, Hel. }
  unfold dispatch, listenersAt. rewrite Ht, Hel, Hls.
  unfold activating in Hact. cbn [foldl].
  destruct (etype e) eqn:Hty.
  - rewrite (invoke_bound e _ Click) by done.
    rewrite !invoke_mismatch by (cbn [ltype]; congruence).
    cbn [call fst snd]. unfold handleInteraction. by rewrite Hattr.
  - rewrite (invoke_mismatch e _ (mkListener Click _)) by (cbn [ltype]; congruence).
    rewrite (invoke_bound e _ TouchEnd) by done.
    rewrite !invoke_mismatch by (cbn [ltype]; congruence).
    cbn [call fst snd]. unfold handleTouchInteraction. by rewrite Hattr.
  - rewrite !(invoke_mismatch e _ (mkListener Click _)),
      !(invoke_mismatch e _ (mkListener TouchEnd _)) by (cbn [ltype]; congruence).
    rewrite (invoke_bound e _ KeyDown) by done.
    cbn [call fst snd]. unfold handleKeyboard. by rewrite Hact, Hattr.
Qed.

Lemma foldl_invoke_mismatch e ws ls :
  Forall (λ l, ltype l ≠ etype e) ls → foldl (invoke e) ws ls = ws.
Proof.
  revert ws. induction ls as [|l ls IH]; intros ws Hall; [done|].
  apply Forall_cons in Hall as [Hl Hall]. simpl.
  by rewrite invoke_mismatch, IH.
Qed.

Lemma reachable_docListeners_click cfg c w0 acts :
  construct cfg (Some c) = Normal w0 → cCards c ≠ 0%nat →
  Forall (λ l, ltype l = Click) (docListeners (run acts w0)).
Proof.
  intros Hc Hn. rewrite (reachable_docListeners _ _ _ acts Hc Hn).
  destruct (enableClickOutside cfg); repeat constructor.
Qed.

Lemma dispatch_quiet_target e w :
  foldl (invoke e) (w, false) (listenersAt (target e) w) = (w, false) →
  Forall (λ l, ltype l ≠ etype e) (docListeners w) →
  dispatch e w = w.
Proof.
  intros Ht Hd. unfold dispatch. rewrite Ht. cbn [fst snd].
  rewrite foldl_invoke_mismatch by done. by case_match.
Qed.

(** X1: on a set-up instance that has not been torn down, a click, a
    touchend and a keydown of Enter or Space on the overlay of item i+1 all do
    exactly what [activatePhone(i+1)] does, and nothing more: the event does
    not go on to the outside-click handler. *)
Theorem input_modalities_agree (cfg : Config) (c : ContainerEl) (w0 : World)
    (acts : list Action) (e : Event) (i : nat) :
  construct cfg (Some c) = Normal w0 → cCards c ≠ 0%nat →
  forallb alive acts = true →
  target e = TOverlay i → (i < 3)%nat → activating e = true →
  dispatch e (run acts w0) = activatePhone (JNum (N.of_nat (i + 1))) (run acts w0).
Proof.
  intros Hc Hn Hall Ht Hi Hact.
  pose proof (reachable_shape _ _ _ _ Hc Hn Hall) as Hs.
  destruct (setUpShape_lookup _ i Hs Hi) as (el & Hel & Hx & Hls).
  by rewrite (dispatch_overlay_toggle _ _ _ _ _ _ _ _ Ht Hel Hls Hx Hact).
Qed.

Lemma input_modalities_agree_witness :
  dispatch (mkEvent KeyDown " " (TOverlay 1)) (run [CallCycleToNext] demo)
  = activatePhone (JNum (N.of_nat (1 + 1))) (run [CallCycleToNext] demo).
Proof.
  apply (input_modalities_agree sourceConfig c3 demo [CallCycleToNext]
           (mkEvent KeyDown " " (TOverlay 1)) 1); try by vm_compute.
  lia.
Defined.

(** X2: on a set-up instance that has not been torn down, an input event
    other than a click changes nothing and emits nothing unless it is an
    activating event on one of the three overlays: a keydown of any key but
    Enter and Space on an overlay is ignored, and so is a touchend or keydown
    anywhere else. *)
Theorem other_input_ignored (cfg : Config) (c : ContainerEl) (w0 : World)
    (acts : list Action) (e : Event) :
  construct cfg (Some c) = Normal w0 → cCards c ≠ 0%nat →
  forallb alive acts = true →
  etype e ≠ Click →
  activating e = false ∨ (∀ i, target e = TOverlay i → (3 ≤ i)%nat) →
  dispatch e (run acts w0) = run acts w0.
Proof.
  intros Hc Hn Hall Hty Hcase.
  pose proof (reachable_shape _ _ _ _ Hc Hn Hall) as Hs.
  apply dispatch_quiet_target.
  - unfold listenersAt. destruct (target e) as [i| |] eqn:Ht; [|done..].
    destruct (decide (i < 3)%nat) as [Hi|Hi].
    + destruct Hcase as [Hact|Hfar]; [|specialize (Hfar i eq_refl); lia].
      destruct (setUpShape_lookup _ i Hs Hi) as (el & Hel & Hx & Hls).
      rewrite Hel, Hls. cbn [foldl]. unfold activating in Hact.
      destruct (etype e) eqn:Hty'; [done..|].
      rewrite !(invoke_mismatch e _ (mkListener Click _)),
        !(invoke_mismatch e _ (mkListener TouchEnd _)) by (cbn [ltype]; congruence).
      rewrite (invoke_bound e _ KeyDown) by done.
      cbn [call fst snd]. unfold handleKeyboard. by rewrite Hact.
    + assert (elems (run acts w0) !! i = None) as ->; [|done].
      apply lookup_ge_None. apply (f_equal length) in Hs.
      rewrite length_fmap in Hs. rewrite Hs. unfold setUpShape. simpl. lia.
  - eapply Forall_impl; [by eapply reachable_docListeners_click|].
    intros l Hl. simpl in Hl. congruence.
Qed.

Lemma other_input_ignored_witness :
  dispatch (mkEvent KeyDown "Tab" (TOverlay 0)) (run [CallActivatePhone (JNum 3)] demo)
  = run [CallActivatePhone (JNum 3)] demo.
Proof.
  apply (other_input_ignored sourceConfig c3 demo [CallActivatePhone (JNum 3)]
           (mkEvent KeyDown "Tab" (TOverlay 0))); try by vm_compute.
  left. by vm_compute.
Defined.

(** ** More frame facts *)

Lemma destroy_keeps {B} (g : World → B) w :
  (∀ f w', g (set_elems f w') = g w') →
  (∀ f w', g (set_children f w') = g w') →
  (∀ f w', g (set_docListeners f w') = g w') →
  g (forEach (λ overlay (_ : nat) w,
       overlay_remove overlay
         (overlay_removeEventListener overlay KeyDown (Proto HandleKeyboard)
            (overlay_removeEventListener overlay TouchEnd (Proto HandleTouchInteraction)
               (overlay_removeEventListener overlay Click (Proto HandleInteraction) w))))
       (overlays w) w) = g w ∧
  ∀ w', g (if enableClickOutside (config w')
           then document_removeEventListener Click (Proto HandleClickOutside) w'
           else w') = g w'.
Proof.
  intros He Hc Hd. split.
  - unfold forEach. apply forEachFrom_keeps. intros o i w'.
    unfold overlay_remove, overlay_removeEventListener. by rewrite Hc, !He.
  - intros w'. case_match; [|done]. unfold document_removeEventListener. by rewrite Hd.
Qed.

Lemma destroy_classList w : classList (destroy w) = classList w.
Proof.
  destruct (destroy_keeps classList w) as [H1 H2]; [done..|].
  unfold destroy, emit, set_activeCard, set_overlays. cbn [classList].
  by rewrite H2, H1.
Qed.

Lemma destroy_outerClasses w : outerClasses (destroy w) = outerClasses w.
Proof.
  destruct (destroy_keeps outerClasses w) as [H1 H2]; [done..|].
  unfold destroy, emit, set_activeCard, set_overlays. cbn [outerClasses].
  by rewrite H2, H1.
Qed.

Lemma destroy_outputs w :
  outputs (destroy w) = outputs w ++ [ConsoleLog "StackedPhones: Component destroyed"].
Proof.
  destruct (destroy_keeps outputs w) as [H1 H2]; [done..|].
  unfold destroy, emit, set_activeCard, set_overlays. cbn [outputs].
  by rewrite H2, H1.
Qed.

Lemma toggleDebugMode_outerClasses w : outerClasses (toggleDebugMode w) = outerClasses w.
Proof.
  unfold toggleDebugMode. case_match.
  - unfold enableDebugMode, emit, forEach. simpl. by rewrite !forEachFrom_keeps.
  - unfold disableDebugMode, emit, set_config, forEach. simpl.
    by rewrite !forEachFrom_keeps.
Qed.

Lemma run_outerClasses acts w : outerClasses (run acts w) = outerClasses w.
Proof.
  apply (run_ind (λ w', outerClasses w' = outerClasses w)); [..|done].
  - intros p w' <-. apply togglePhone_outerClasses.
  - intros w' <-. apply deactivateAll_outerClasses.
  - intros w' <-. apply toggleDebugMode_outerClasses.
  - intros ps w' <-. by apply (updateOverlayPositions_keeps outerClasses).
  - intros w' <-. apply destroy_outerClasses.
Qed.

(** A class that is not one of the three markers stays on the container. *)
Lemma cleared_keeps c l : c ∉ activeClasses → c ∈ l → c ∈ cleared l.
Proof. intros Hc Hin. by apply list_elem_of_filter. Qed.

Lemma togglePhone_classList p w :
  classList (togglePhone p w) =
  if classList_contains (cardClassOf p) w then cleared (classList w)
  else marked (cardClassOf p) (classList w).
Proof.
  unfold classList_contains. case_bool_decide.
  - by rewrite togglePhone_off, deactivateAll_classList.
  - by rewrite togglePhone_on_classList.
Qed.

Lemma run_keeps_class c acts w :
  c ∉ activeClasses → c ∈ classList w → c ∈ classList (run acts w).
Proof.
  intros Hc. apply (run_ind (λ w', c ∈ classList w')).
  - intros p w' Hin. rewrite togglePhone_classList. case_match.
    + by apply cleared_keeps.
    + unfold marked. case_match; [by apply cleared_keeps|].
      apply elem_of_app. left. by apply cleared_keeps.
  - intros w' Hin. rewrite deactivateAll_classList. by apply cleared_keeps.
  - intros w' Hin. by rewrite (proj1 (toggleDebugMode_frame w')).
  - intros ps w' Hin. by rewrite (updateOverlayPositions_keeps classList).
  - intros w' Hin. by rewrite destroy_classList.
Qed.

(** ** Clicks inside the container *)

(** X3: a click inside the container that is not on an overlay goes to the
    outside-click handler like any other click; it dismisses exactly when
    dismissal was enabled, there is a non-empty selection, and neither the
    clicked element, nor anything between it and the container, nor the
    container itself, nor any ancestor of the container has the class
    [phone-stack-container]. So on a container that has this class, as the
    bootstrap's containers do, a click inside never dismisses, whatever was
    called before. *)
Theorem inside_click (cfg : Config) (c : ContainerEl) (w0 : World) (acts : list Action)
    (e : Event) (below : list (list string)) :
  construct cfg (Some c) = Normal w0 → cCards c ≠ 0%nat →
  target e = TInside below →
  dispatch e (run acts w0) =
    (if enableClickOutside cfg && bool_decide (etype e = Click)
        && negb (existsb (hasClass "phone-stack-container") below
                 || (hasClass "phone-stack-container" (classList (run acts w0))
                     || existsb (hasClass "phone-stack-container") (cOuter c)))
        && truthy (getActivePhone (run acts w0))
     then deactivateAll (run acts w0)
     else run acts w0) ∧
  ("phone-stack-container" ∈ cClasses c → dispatch e (run acts w0) = run acts w0).
Proof.
  intros Hc Hn Ht.
  assert (dispatch e (run acts w0) =
    (if enableClickOutside cfg && bool_decide (etype e = Click)
        && negb (existsb (hasClass "phone-stack-container") below
                 || (hasClass "phone-stack-container" (classList (run acts w0))
                     || existsb (hasClass "phone-stack-container") (cOuter c)))
        && truthy (getActivePhone (run acts w0))
     then deactivateAll (run acts w0)
     else run acts w0)) as Heq.
  { pose proof (reachable_docListeners _ _ _ acts Hc Hn) as Hd.
    assert (outerClasses (run acts w0) = cOuter c) as Ho.
    { rewrite run_outerClasses, (construct_Some _ _ _ Hc Hn).
      destruct cfg as [[] [] ? ? ?]; by vm_compute. }
    unfold dispatch, listenersAt, getActivePhone. rewrite Ht. simpl. rewrite Hd.
    destruct (enableClickOutside cfg); [|done]. simpl.
    case_bool_decide as Hty.
    - rewrite invoke_bound by done. cbn [call fst snd].
      unfold handleClickOutside, closest. rewrite Ht, Ho. cbn [andb].
      by destruct (negb _ && truthy _).
    - by rewrite invoke_mismatch. }
  split; [done|]. intros Hroot. rewrite Heq.
  assert (hasClass "phone-stack-container" (classList (run acts w0)) = true) as ->.
  { apply bool_decide_eq_true_2, run_keeps_class; [by_compute|].
    rewrite (construct_Some _ _ _ Hc Hn).
    destruct cfg as [[] [] ? ? ?]; by vm_compute. }
  by rewrite orb_true_r, andb_false_r.
Qed.

Lemma inside_click_witness :
  dispatch (mkEvent Click "" (TInside [["phone-card"]])) (run [CallActivatePhone (JNum 1)] demo) =
    (if enableClickOutside sourceConfig
        && bool_decide (etype (mkEvent Click "" (TInside [["phone-card"]])) = Click)
        && negb (existsb (hasClass "phone-stack-container") [["phone-card"]]
                 || (hasClass "phone-stack-container"
                       (classList (run [CallActivatePhone (JNum 1)] demo))
                     || existsb (hasClass "phone-stack-container") (cOuter c3)))
        && truthy (getActivePhone (run [CallActivatePhone (JNum 1)] demo))
     then deactivateAll (run [CallActivatePhone (JNum 1)] demo)
     else run [CallActivatePhone (JNum 1)] demo) ∧
  ("phone-stack-container" ∈ cClasses c3 →
   dispatch (mkEvent Click "" (TInside [["phone-card"]])) (run [CallActivatePhone (JNum 1)] demo)
   = run [CallActivatePhone (JNum 1)] demo).
Proof.
  apply (inside_click sourceConfig c3 demo [CallActivatePhone (JNum 1)]
           (mkEvent Click "" (TInside [["phone-card"]])) [["phone-card"]]);
    by vm_compute.
Defined.

(** ** Notifications *)

(** X4: every call of [togglePhone] whose argument holds no ASCII
    whitespace (null and every item identifier are such), whatever the state,
    dispatches 'phoneDeactivated' first, also when nothing was active;
    'phoneActivated' follows exactly when the container did not already carry
    the class of the argument. *)
Theorem toggle_notifications (p : option string) (w : World) :
  noWhitespace (interpolate p) = true →
  evName <$> emittedBy (togglePhone p) w =
  if classList_contains (cardClassOf p) w
  then ["phoneDeactivated"]
  else ["phoneDeactivated"; "phoneActivated"].
Proof.
  intros _. unfold emittedBy, classList_contains. case_bool_decide.
  - by rewrite togglePhone_off, deactivateAll_outputs, drop_app_length.
  - by rewrite togglePhone_on_outputs, drop_app_length.
Qed.

Lemma toggle_notifications_witness :
  evName <$> emittedBy (togglePhone (Some "2")) demo =
  if classList_contains (cardClassOf (Some "2")) demo
  then ["phoneDeactivated"]
  else ["phoneDeactivated"; "phoneActivated"].
Proof. apply (toggle_notifications (Some "2") demo). by vm_compute. Defined.

Lemma coherent_deactivated l :
  coherent (mkCustomEvent "phoneDeactivated" [] None (cleared l)).
Proof. right. split_and!; [done..|]. apply markers_cleared. Qed.

Lemma coherent_activated p l :
  coherent (mkCustomEvent "phoneActivated" [("phoneNumber", p)] p (marked (cardClassOf p) l)).
Proof. left. split_and!; [done..|]. apply marked_contains. Qed.

Lemma Forall_coherent_snoc os o :
  Forall coherent (notifications os) →
  match o with Dispatched ev => coherent ev | _ => True end →
  Forall coherent (notifications (os ++ [o])).
Proof.
  intros Hos Ho. rewrite notifications_app. apply Forall_app. split; [done|].
  destruct o; simpl; [constructor..|]. constructor; [done|constructor].
Qed.

Lemma deactivateAll_coherent w :
  Forall coherent (notifications (outputs w)) →
  Forall coherent (notifications (outputs (deactivateAll w))).
Proof.
  intros Hw. rewrite deactivateAll_outputs.
  apply Forall_coherent_snoc; [done|apply coherent_deactivated].
Qed.

Lemma togglePhone_coherent p w :
  Forall coherent (notifications (outputs w)) →
  Forall coherent (notifications (outputs (togglePhone p w))).
Proof.
  intros Hw. destruct (decide (cardClassOf p ∈ classList w)) as [Hin|Hout].
  - rewrite togglePhone_off by done. by apply deactivateAll_coherent.
  - rewrite togglePhone_on_outputs by done.
    change [?a; ?b] with ([a] ++ [b]). rewrite app_assoc.
    apply Forall_coherent_snoc; [|apply coherent_activated].
    apply Forall_coherent_snoc; [done|apply coherent_deactivated].
Qed.

(** X5: every custom event the component ever dispatches is coherent with
    the state a listener sees while it runs: 'phoneActivated' carries exactly
    the item that [getActivePhone()] returns at that moment, and the
    container already has that item's class; 'phoneDeactivated' carries no
    item and is dispatched when the selection is none and the container has
    none of the three marker classes. This holds for every container, with or
    without cards, and every later call or input event. *)
Theorem notifications_coherent (cfg : Config) (c : ContainerEl) (w0 : World)
    (acts : list Action) :
  construct cfg (Some c) = Normal w0 →
  Forall coherent (notifications (outputs (run acts w0))).
Proof.
  intros Hc. apply (run_ind (λ w, Forall coherent (notifications (outputs w)))).
  - intros p w. apply togglePhone_coherent.
  - apply deactivateAll_coherent.
  - intros w Hw. by rewrite (proj2 (proj2 (proj2 (proj2 (toggleDebugMode_frame w))))).
  - intros ps w Hw. by rewrite (updateOverlayPositions_keeps outputs).
  - intros w Hw. rewrite destroy_outputs. by apply Forall_coherent_snoc.
  - unfold construct in Hc. simpl in Hc. case_match; injection Hc as <-.
    + constructor.
    + destruct cfg as [[] [] ? ? ?]; vm_compute; constructor.
Qed.

Lemma notifications_coherent_witness :
  Forall coherent
    (notifications (outputs (run [CallActivatePhone (JStr "4"); CallCycleToNext; CallDestroy]
                               demo))).
Proof.
  apply (notifications_coherent sourceConfig c3 demo
           [CallActivatePhone (JStr "4"); CallCycleToNext; CallDestroy]).
  by vm_compute.
Defined.

(** ** What an input event can do *)

Lemma target_phase_quiet w e :
  overlayShape <$> elems w = setUpShape →
  activating e = false ∨ (∀ i, target e = TOverlay i → (3 ≤ i)%nat) →
  foldl (invoke e) (w, false) (listenersAt (target e) w) = (w, false).
Proof.
  intros Hs Hcase. unfold listenersAt. destruct (target e) as [i| |] eqn:Ht; [|done..].
  destruct (decide (i < 3)%nat) as [Hi|Hi].
  - destruct Hcase as [Hact|Hfar]; [|specialize (Hfar i eq_refl); lia].
    destruct (setUpShape_lookup _ i Hs Hi) as (el & Hel & Hx & Hls).
    rewrite Hel, Hls. cbn [foldl]. unfold activating in Hact.
    destruct (etype e) eqn:Hty'; [done..|].
    rewrite !(invoke_mismatch e _ (mkListener Click _)),
      !(invoke_mismatch e _ (mkListener TouchEnd _)) by (cbn [ltype]; congruence).
    rewrite (invoke_bound e _ KeyDown) by done.
    cbn [call fst snd]. unfold handleKeyboard. by rewrite Hact.
  - assert (elems w !! i = None) as ->; [|done].
    apply lookup_ge_None. apply (f_equal length) in Hs.
    rewrite length_fmap in Hs. rewrite Hs. unfold setUpShape. simpl. lia.
Qed.

Lemma document_phase e w (b : bool) k :
  docListeners w = (if b then [mkListener Click (Bound HandleClickOutside k)] else []) →
  (foldl (invoke e) (w, false) (docListeners w)).1 = w ∨
  (foldl (invoke e) (w, false) (docListeners w)).1 = deactivateAll w.
Proof.
  intros ->. destruct b; [|by left]. cbn [foldl].
  destruct (decide (Click = etype e)) as [Hty|Hty].
  - rewrite invoke_bound by done. cbn [call fst snd]. unfold handleClickOutside.
    case_match; [by right|by left].
  - rewrite invoke_mismatch by done. by left.
Qed.

Lemma dispatch_after_quiet e w :
  foldl (invoke e) (w, false) (listenersAt (target e) w) = (w, false) →
  dispatch e w = w ∨ dispatch e w = (foldl (invoke e) (w, false) (docListeners w)).1.
Proof.
  intros Hq. unfold dispatch. rewrite Hq. cbn [fst snd].
  destruct (false || negb (connected (target e) w)); auto.
Qed.

Lemma dispatch_cases cfg c w0 acts e :
  construct cfg (Some c) = Normal w0 → cCards c ≠ 0%nat →
  forallb alive acts = true →
  dispatch e (run acts w0) = run acts w0 ∨
  dispatch e (run acts w0) = deactivateAll (run acts w0) ∨
  ∃ x, x ∈ getPhoneNumbers ∧ dispatch e (run acts w0) = togglePhone (Some x) (run acts w0).
Proof.
  intros Hc Hn Hall.
  pose proof (reachable_shape _ _ _ _ Hc Hn Hall) as Hs.
  pose proof (reachable_docListeners _ _ _ acts Hc Hn) as Hd.
  assert (activating e = false ∨ (∀ i, target e = TOverlay i → (3 ≤ i)%nat) ∨
          ∃ i, target e = TOverlay i ∧ (i < 3)%nat ∧ activating e = true)
    as [Hq|[Hq|(i & Ht & Hi & Hact)]].
  { destruct (activating e); [|by left]. right.
    destruct (target e) as [i| |]; [|by left..].
    destruct (decide (i < 3)%nat); [right; eauto|left].
    intros j [= <-]. lia. }
  - pose proof (target_phase_quiet _ e Hs (or_introl Hq)) as Hq'.
    destruct (dispatch_after_quiet _ _ Hq') as [->| ->]; [by left|].
    destruct (document_phase e _ _ _ Hd) as [->| ->]; auto.
  - pose proof (target_phase_quiet _ e Hs (or_intror Hq)) as Hq'.
    destruct (dispatch_after_quiet _ _ Hq') as [->| ->]; [by left|].
    destruct (document_phase e _ _ _ Hd) as [->| ->]; auto.
  - destruct (setUpShape_lookup _ i Hs Hi) as (el & Hel & Hx & Hls).
    right. right. exists (pretty (i + 1)%nat). split.
    + destruct pretty_items as (P1 & P2 & P3).
      destruct i as [|[|[|i]]]; [rewrite ?P1, ?P2, ?P3; by_compute..|lia].
    + by apply (dispatch_overlay_toggle _ _ _ _ _ _ _ _ Ht Hel Hls Hx Hact).
Qed.

Lemma ordinary_alive acts : forallb ordinary acts = true → forallb alive acts = true.
Proof.
  induction acts as [|a acts IH]; [done|]. simpl.
  intros [Ha Hall]%andb_prop. rewrite IH by done.
  by destruct a as [[]| | | | | |].
Qed.

(** Induction over the states a set-up instance reaches in ordinary use. *)
Section reachable_ind.
Context (P : World → Prop).
Hypothesis P_toggle : ∀ x w, x ∈ getPhoneNumbers → P w → P (togglePhone (Some x) w).
Hypothesis P_deactivate : ∀ w, P w → P (deactivateAll w).
Hypothesis P_debug : ∀ w, P w → P (toggleDebugMode w).
Hypothesis P_positions : ∀ ps w, P w → P (updateOverlayPositions ps w).

Lemma reachable_ind cfg c w0 acts :
  construct cfg (Some c) = Normal w0 → cCards c ≠ 0%nat →
  forallb ordinary acts = true → P w0 → P (run acts w0).
Proof.
  intros Hc Hn Hall H0. induction acts as [|a acts IH] using rev_ind; [done|].
  apply forallb_Forall, Forall_app in Hall as [Hall Ha].
  apply forallb_Forall in Hall. specialize (IH Hall).
  inversion Ha as [|? ? Ha' _]; subst. rewrite run_snoc.
  destruct a as [[x|]|v| | |ps| |e]; simpl in *; try done.
  - apply bool_decide_eq_true in Ha'. by apply P_toggle.
  - apply bool_decide_eq_true in Ha'. by apply P_toggle.
  - destruct (cycleToNext_toggles (run acts w0)) as (p & Hp & ->). by apply P_toggle.
  - by apply P_debug.
  - by apply P_positions.
  - destruct (dispatch_cases _ _ _ acts e Hc Hn (ordinary_alive _ Hall))
      as [->|[->|(x & Hx & ->)]]; auto.
Qed.
End reachable_ind.

(** ** The container's other classes *)

Lemma cleared_cleared l : cleared (cleared l) = cleared l.
Proof.
  unfold cleared. induction l as [|c l IH]; [done|].
  rewrite (filter_cons _ c). case_decide; [|done].
  by rewrite filter_cons, decide_True, IH.
Qed.

Lemma cleared_marked c l : c ∈ activeClasses → cleared (marked c l) = cleared l.
Proof.
  intros Hc. unfold marked. case_match; [apply cleared_cleared|].
  unfold cleared at 1. rewrite filter_app, filter_cons, decide_False by auto.
  rewrite filter_nil, app_nil_r. apply cleared_cleared.
Qed.

(** X6: a set-up instance in ordinary use only ever adds and removes the
    three marker classes: whatever else the container had in its class list
    when it was handed to the constructor is still there afterwards, in the
    same order, and nothing else has been added. *)
Theorem other_classes_untouched (cfg : Config) (c : ContainerEl) (w0 : World)
    (acts : list Action) :
  construct cfg (Some c) = Normal w0 → cCards c ≠ 0%nat →
  forallb ordinary acts = true →
  cleared (classList (run acts w0)) = cleared (cClasses c).
Proof.
  intros Hc Hn Hall.
  apply (reachable_ind (λ w, cleared (classList w) = cleared (cClasses c)))
    with (cfg := cfg) (c := c); try done.
  - intros x w Hx <-. rewrite togglePhone_classList. case_match.
    + apply cleared_cleared.
    + by apply cleared_marked, cardClassOf_valid.
  - intros w <-. rewrite deactivateAll_classList. apply cleared_cleared.
  - intros w <-. by rewrite (proj1 (toggleDebugMode_frame w)).
  - intros ps w <-. by rewrite (updateOverlayPositions_keeps classList).
  - rewrite (construct_Some _ _ _ Hc Hn). destruct cfg as [[] [] ? ? ?]; by vm_compute.
Qed.

Lemma other_classes_untouched_witness :
  cleared (classList (run [CallActivatePhone (JNum 2); Input outsideClick; CallCycleToNext]
                        demo))
  = cleared (cClasses c3).
Proof.
  apply (other_classes_untouched sourceConfig c3 demo
           [CallActivatePhone (JNum 2); Input outsideClick; CallCycleToNext]);
    by vm_compute.
Defined.

(** ** Cycling from any state *)

(** X7: [cycleToNext()] always ends in one activation of an item of the
    list, in any state: the index it computes is never out of range. When the
    selection is none, or is a string that is not in the list, it activates
    the first item; otherwise the item after the selection, wrapping. *)
Theorem cycleToNext_any_state (w : World) :
  cycleToNext w = togglePhone (nextInOrder (getActivePhone w)) w ∧
  validId (nextInOrder (getActivePhone w)) ∧
  nextInOrder (getActivePhone w) ≠ None.
Proof.
  unfold cycleToNext, indexOf, getPhoneNumbers, nextInOrder, activatePhone, getActivePhone.
  destruct (activeCard w) as [x|]; simpl; [|split_and!; [done|by_compute|done]].
  repeat case_bool_decide; simplify_eq; simpl; split_and!; try done; by_compute.
Qed.

(** ** Debug visualisation *)

Lemma debug_loop_lookup (on : bool) body l w j o :
  (∀ o' i w', elems (body o' i w') = alter (debugStyle on) o' (elems w')) →
  NoDup l → l !! j = Some o →
  elems (forEach body l w) !! o = debugStyle on <$> elems w !! o.
Proof.
  intros Hbody Hnd Hj. unfold forEach.
  by rewrite (forEachFrom_alter_in (λ _, debugStyle on) body Hbody 0 _ _ j).
Qed.

Lemma debug_loop_other (on : bool) body l w o :
  (∀ o' i w', elems (body o' i w') = alter (debugStyle on) o' (elems w')) →
  o ∉ l →
  elems (forEach body l w) !! o = elems w !! o.
Proof.
  intros Hbody Ho. unfold forEach.
  by rewrite (forEachFrom_alter_notin (λ _, debugStyle on) body Hbody).
Qed.

Lemma toggleDebugMode_elems w o :
  NoDup (overlays w) →
  elems (toggleDebugMode w) !! o =
  if bool_decide (o ∈ overlays w)
  then debugStyle (negb (debugMode (config w))) <$> elems w !! o
  else elems w !! o.
Proof.
  intros Hnd. unfold toggleDebugMode.
  destruct (debugMode (config w)) eqn:Hdbg; simpl; rewrite Hdbg; simpl.
  - unfold disableDebugMode, emit, set_config. cbn [elems].
    case_bool_decide as Hin.
    + apply list_elem_of_lookup in Hin as [j Hj].
      rewrite (debug_loop_lookup false _ _ _ j o); [done| |done..].
      intros o' i w'. simpl. by rewrite !list_alter_alter_eq.
    + rewrite (debug_loop_other false); [done| |done].
      intros o' i w'. simpl. by rewrite !list_alter_alter_eq.
  - unfold enableDebugMode, emit. cbn [elems].
    case_bool_decide as Hin.
    + apply list_elem_of_lookup in Hin as [j Hj].
      rewrite (debug_loop_lookup true _ _ _ j o); [done| |done..].
      intros o' i w'. simpl. by rewrite !list_alter_alter_eq.
    + rewrite (debug_loop_other true); [done| |done].
      intros o' i w'. simpl. by rewrite !list_alter_alter_eq.
Qed.

Lemma toggleDebugMode_debugMode w :
  debugMode (config (toggleDebugMode w)) = negb (debugMode (config w)).
Proof.
  unfold toggleDebugMode. destruct (debugMode (config w)) eqn:Hdbg; simpl; rewrite Hdbg.
  - unfold disableDebugMode, emit, set_config. done.
  - unfold enableDebugMode, emit, forEach. simpl.
    rewrite (forEachFrom_keeps (λ w, debugMode (config w))) by done.
    simpl. by rewrite Hdbg.
Qed.

(** X8: [toggleDebugMode()] flips the debug flag and restyles exactly the
    overlays the instance holds: translucent red fill, red border and opacity
    0.8 when the flag becomes true; transparent fill, no border and opacity 1
    when it becomes false. It leaves every attribute and listener of every
    element, the container's classes, the selection, the document listeners
    and the notifications as they were. *)
Theorem toggleDebugMode_effect (w : World) :
  NoDup (overlays w) →
  debugMode (config (toggleDebugMode w)) = negb (debugMode (config w)) ∧
  (∀ o, elems (toggleDebugMode w) !! o =
        if bool_decide (o ∈ overlays w)
        then debugStyle (negb (debugMode (config w))) <$> elems w !! o
        else elems w !! o) ∧
  Forall2 sameButStyle (elems w) (elems (toggleDebugMode w)) ∧
  classList (toggleDebugMode w) = classList w ∧
  getActivePhone (toggleDebugMode w) = getActivePhone w ∧
  overlays (toggleDebugMode w) = overlays w ∧
  docListeners (toggleDebugMode w) = docListeners w ∧
  notifications (outputs (toggleDebugMode w)) = notifications (outputs w).
Proof.
  intros Hnd. split_and!.
  - apply toggleDebugMode_debugMode.
  - intros o. by apply toggleDebugMode_elems.
  - apply toggleDebugMode_related.
  - apply toggleDebugMode_frame.
  - apply toggleDebugMode_frame.
  - apply toggleDebugMode_frame.
  - apply toggleDebugMode_frame.
  - apply toggleDebugMode_frame.
Qed.

Lemma toggleDebugMode_effect_witness :
  debugMode (config (toggleDebugMode demo)) = negb (debugMode (config demo)) ∧
  (∀ o, elems (toggleDebugMode demo) !! o =
        if bool_decide (o ∈ overlays demo)
        then debugStyle (negb (debugMode (config demo))) <$> elems demo !! o
        else elems demo !! o) ∧
  Forall2 sameButStyle (elems demo) (elems (toggleDebugMode demo)) ∧
  classList (toggleDebugMode demo) = classList demo ∧
  getActivePhone (toggleDebugMode demo) = getActivePhone demo ∧
  overlays (toggleDebugMode demo) = overlays demo ∧
  docListeners (toggleDebugMode demo) = docListeners demo ∧
  notifications (outputs (toggleDebugMode demo)) = notifications (outputs demo).
Proof. apply (toggleDebugMode_effect demo). by_compute. Defined.

(** ** Teardown, in any state *)

Lemma filter_all {A} (P : A → Prop) `{!∀ x, Decision (P x)} (l : list A) :
  (∀ x, P x) → filter P l = l.
Proof.
  intros HP. induction l as [|x l IH]; [done|].
  by rewrite filter_cons, decide_True, IH.
Qed.

Lemma destroy_loop_children (body : nat → nat → World → World) i l w :
  (∀ o j w', children (body o j w') = filter (λ c, c ≠ o) (children w')) →
  children (forEachFrom body i l w) = filter (λ c, c ∉ l) (children w).
Proof.
  intros Hbody. revert i w. induction l as [|x l IH]; intros i w; simpl.
  - symmetry. apply filter_all. intros c. apply not_elem_of_nil.
  - rewrite IH, Hbody, list_filter_filter. apply list_filter_iff.
    intros c. rewrite not_elem_of_cons. tauto.
Qed.

Lemma removeListener_related id ty fn w :
  Forall2 sameButListeners (elems w) (elems (overlay_removeEventListener id ty fn w)) ∧
  Forall2 noNewListeners (elems w) (elems (overlay_removeEventListener id ty fn w)).
Proof.
  split; apply Forall2_alter_r.
  - by apply Forall_Forall2_diag, Forall_true.
  - intros x y Hx Hy _. rewrite Hx in Hy. by injection Hy as <-.
  - apply Forall_Forall2_diag, Forall_true. intros el. unfold noNewListeners. reflexivity.
  - intros x y Hx Hy _. rewrite Hx in Hy. injection Hy as <-.
    apply sublist_filter.
Qed.

#[local] Instance sameButListeners_refl : Reflexive sameButListeners.
Proof. by intros el. Qed.
#[local] Instance sameButListeners_trans : Transitive sameButListeners.
Proof. intros a b c (?&?&?) (?&?&?). split_and!; congruence. Qed.
#[local] Instance noNewListeners_refl : Reflexive noNewListeners.
Proof. intros el. unfold noNewListeners. reflexivity. Qed.
#[local] Instance noNewListeners_trans : Transitive noNewListeners.
Proof. intros a b c H1 H2. unfold noNewListeners in *. by etrans. Qed.

Lemma destroy_body_related o w :
  Forall2 sameButListeners (elems w)
    (elems (overlay_remove o
       (overlay_removeEventListener o KeyDown (Proto HandleKeyboard)
          (overlay_removeEventListener o TouchEnd (Proto HandleTouchInteraction)
             (overlay_removeEventListener o Click (Proto HandleInteraction) w))))) ∧
  Forall2 noNewListeners (elems w)
    (elems (overlay_remove o
       (overlay_removeEventListener o KeyDown (Proto HandleKeyboard)
          (overlay_removeEventListener o TouchEnd (Proto HandleTouchInteraction)
             (overlay_removeEventListener o Click (Proto HandleInteraction) w))))).
Proof.
  unfold overlay_remove, set_children. cbn [elems]. split.
  - etrans; [apply removeListener_related|]. etrans; apply removeListener_related.
  - etrans; [apply removeListener_related|]. etrans; apply removeListener_related.
Qed.

Lemma destroy_elems w :
  Forall2 sameButListeners (elems w) (elems (destroy w)) ∧
  Forall2 noNewListeners (elems w) (elems (destroy w)).
Proof.
  unfold destroy, emit, set_activeCard, set_overlays. cbn [elems].
  split; case_match; unfold document_removeEventListener; cbn [elems set_docListeners];
    unfold forEach.
  - exact (forEachFrom_related sameButListeners _
             (λ o i w', proj1 (destroy_body_related o w')) _ _ _).
  - exact (forEachFrom_related sameButListeners _
             (λ o i w', proj1 (destroy_body_related o w')) _ _ _).
  - exact (forEachFrom_related noNewListeners _
             (λ o i w', proj2 (destroy_body_related o w')) _ _ _).
  - exact (forEachFrom_related noNewListeners _
             (λ o i w', proj2 (destroy_body_related o w')) _ _ _).
Qed.

Lemma destroy_children w :
  children (destroy w) = filter (λ c, c ∉ overlays w) (children w).
Proof.
  unfold destroy, emit, set_activeCard, set_overlays. cbn [children].
  case_match; unfold document_removeEventListener; cbn [children set_docListeners];
    unfold forEach; by apply destroy_loop_children.
Qed.

(** X9: [destroy()], in any state, empties [this.overlays], takes exactly
    those overlays out of the container, and resets the selection without
    going through [deactivateAll]: no notification is emitted, the
    container's classes are left as they are (an active marker stays), and no
    element's attributes or style change (the ARIA flags stay). *)
Theorem destroy_effect (w : World) :
  getActivePhone (destroy w) = None ∧
  overlays (destroy w) = [] ∧
  children (destroy w) = filter (λ c, c ∉ overlays w) (children w) ∧
  classList (destroy w) = classList w ∧
  notifications (outputs (destroy w)) = notifications (outputs w) ∧
  Forall2 sameButListeners (elems w) (elems (destroy w)).
Proof.
  split_and!.
  - done.
  - done.
  - apply destroy_children.
  - apply destroy_classList.
  - rewrite destroy_outputs, notifications_app. simpl. apply app_nil_r.
  - apply destroy_elems.
Qed.

(** ** Nothing is created after construction *)

Lemma destroy_docListeners_sublist w :
  docListeners (destroy w) `sublist_of` docListeners w.
Proof.
  unfold destroy, emit, set_activeCard, set_overlays. cbn [docListeners].
  case_match; unfold document_removeEventListener; cbn [docListeners set_docListeners];
    unfold forEach; rewrite forEachFrom_keeps by done; [apply sublist_filter|done].
Qed.

Lemma sameOverlay_noNew l l' : Forall2 sameOverlay l l' → Forall2 noNewListeners l l'.
Proof.
  intros HR. eapply Forall2_impl; [done|].
  intros el el' (_ & _ & Hl). unfold noNewListeners. by rewrite Hl.
Qed.

(** X10: once an instance exists, no call and no input event ever creates
    an overlay element or registers a listener: the number of overlay elements
    stays the same, and the listeners on each element and on the document are
    always among those that were there before, in the same order. *)
Theorem nothing_new (acts : list Action) (w : World) :
  length (elems (run acts w)) = length (elems w) ∧
  Forall2 noNewListeners (elems w) (elems (run acts w)) ∧
  docListeners (run acts w) `sublist_of` docListeners w.
Proof.
  assert (Forall2 noNewListeners (elems w) (elems (run acts w)) ∧
          docListeners (run acts w) `sublist_of` docListeners w) as [He Hd].
  { apply (run_ind (λ w', Forall2 noNewListeners (elems w) (elems w') ∧
                           docListeners w' `sublist_of` docListeners w)); [..|done].
    - intros p w' [He Hd]. split.
      + etrans; [done|]. apply sameOverlay_noNew, togglePhone_related.
      + by rewrite togglePhone_docListeners.
    - intros w' [He Hd]. split.
      + etrans; [done|]. apply sameOverlay_noNew, deactivateAll_related.
      + by rewrite deactivateAll_docListeners.
    - intros w' [He Hd]. split.
      + etrans; [done|]. apply sameOverlay_noNew.
        eapply Forall2_impl; [apply toggleDebugMode_related|].
        apply sameButStyle_sameOverlay.
      + by rewrite (proj1 (proj2 (proj2 (proj2 (toggleDebugMode_frame w'))))).
    - intros ps w' [He Hd]. split.
      + by rewrite (updateOverlayPositions_keeps elems).
      + by rewrite (updateOverlayPositions_keeps docListeners).
    - intros w' [He Hd]. split.
      + etrans; [done|]. apply destroy_elems.
      + etrans; [apply destroy_docListeners_sublist|done]. }
  split_and!; [|done..]. symmetry. by eapply Forall2_length.
Qed.

(** ** What construction sets up *)

(** X11: on a container with cards the constructor creates three overlay
    elements, holds them in order in [this.overlays] and appends them in order
    to the container. Each carries its two class tokens, the item tag, the
    label "Toggle phone N", role button and tabindex 0, and nothing else: in
    particular no pressed or expanded flag yet. Each has one click, one
    touchend and one keydown listener, every one a function object of its
    own. The container's classes are untouched, nothing is selected, nothing
    has been emitted; the overlays are unstyled unless the debug flag is set.
    The document gets one click listener when outside-click dismissal is
    enabled and none otherwise. *)
Theorem construction_sets_up (cfg : Config) (c : ContainerEl) :
  cCards c ≠ 0%nat →
  ∃ w0, construct cfg (Some c) = Normal w0 ∧
    overlays w0 = [0; 1; 2]%nat ∧ children w0 = [0; 1; 2]%nat ∧
    elems w0 = (if debugMode cfg then debugStyle true else id)
                 <$> imap setUpOverlay overlayConfigs ∧
    docListeners w0 = (if enableClickOutside cfg
                       then [mkListener Click (Bound HandleClickOutside 9)] else []) ∧
    classList w0 = cClasses c ∧ getActivePhone w0 = None ∧
    notifications (outputs w0) = [] ∧ warnings (outputs w0) = [] ∧
    config w0 = cfg.
Proof.
  intros Hn. exists (init (fresh cfg c)). split.
  { unfold construct. simpl. by rewrite bool_decide_eq_false_2. }
  destruct cfg as [[] [] ? ? ?]; split_and!; by vm_compute.
Qed.

Lemma construction_sets_up_witness :
  ∃ w0, construct sourceConfig (Some c3) = Normal w0 ∧
    overlays w0 = [0; 1; 2]%nat ∧ children w0 = [0; 1; 2]%nat ∧
    elems w0 = (if debugMode sourceConfig then debugStyle true else id)
                 <$> imap setUpOverlay overlayConfigs ∧
    docListeners w0 = (if enableClickOutside sourceConfig
                       then [mkListener Click (Bound HandleClickOutside 9)] else []) ∧
    classList w0 = cClasses c3 ∧ getActivePhone w0 = None ∧
    notifications (outputs w0) = [] ∧ warnings (outputs w0) = [] ∧
    config w0 = sourceConfig.
Proof. apply (construction_sets_up sourceConfig c3). by vm_compute. Defined.

(** ** The configuration *)

Lemma updateAriaStates_keeps {B} (g : World → B) a w :
  (∀ f w', g (set_elems f w') = g w') → g (updateAriaStates a w) = g w.
Proof.
  intros He. unfold updateAriaStates, forEach. apply forEachFrom_keeps.
  intros o i w'. unfold setAttribute. by rewrite !He.
Qed.

Lemma deactivateAll_keeps {B} (g : World → B) w :
  (∀ f w', g (set_classList f w') = g w') →
  (∀ a w', g (set_activeCard a w') = g w') →
  (∀ f w', g (set_elems f w') = g w') →
  (∀ o w', g (emit o w') = g w') →
  g (deactivateAll w) = g w.
Proof.
  intros Hc Ha He Ho. unfold deactivateAll, dispatchEvent, classList_remove.
  by rewrite Ho, updateAriaStates_keeps, Ha, Hc.
Qed.

Lemma togglePhone_keeps {B} (g : World → B) p w :
  (∀ f w', g (set_classList f w') = g w') →
  (∀ a w', g (set_activeCard a w') = g w') →
  (∀ f w', g (set_elems f w') = g w') →
  (∀ o w', g (emit o w') = g w') →
  g (togglePhone p w) = g w.
Proof.
  intros Hc Ha He Ho. unfold togglePhone. case_match; [by apply deactivateAll_keeps|].
  unfold dispatchEvent, classList_add.
  by rewrite Ho, updateAriaStates_keeps, Ha, Hc, deactivateAll_keeps.
Qed.

Lemma toggleDebugMode_config w :
  config (toggleDebugMode w) =
  mkConfig (negb (debugMode (config w))) (enableClickOutside (config w))
    (overlayVisibleWidths (config w)) (overlayLeftPositions (config w))
    (enableHoverFeedback (config w)).
Proof.
  unfold toggleDebugMode. destruct (debugMode (config w)) eqn:Hdbg; simpl; rewrite Hdbg; simpl.
  - unfold disableDebugMode, emit, set_config, forEach. simpl.
    by rewrite !forEachFrom_keeps.
  - unfold enableDebugMode, emit, forEach. simpl.
    rewrite !forEachFrom_keeps by done. simpl. by rewrite Hdbg.
Qed.

Lemma destroy_config w : config (destroy w) = config w.
Proof.
  destruct (destroy_keeps config w) as [H1 H2]; [done..|].
  unfold destroy, emit, set_activeCard, set_overlays. cbn [config].
  by rewrite H2, H1.
Qed.

(** X12: the behavioural switches and the overlay widths of the
    configuration never change after construction, whatever is called; only
    the debug flag and the left offsets do. [updateOverlayPositions] accepts
    nothing but an array of exactly three offsets, so the instance always
    holds exactly three. *)
Theorem config_stable (acts : list Action) (w : World) :
  length (overlayLeftPositions (config w)) = 3%nat →
  length (overlayLeftPositions (config (run acts w))) = 3%nat ∧
  overlayVisibleWidths (config (run acts w)) = overlayVisibleWidths (config w) ∧
  enableClickOutside (config (run acts w)) = enableClickOutside (config w) ∧
  enableHoverFeedback (config (run acts w)) = enableHoverFeedback (config w).
Proof.
  intros H3.
  apply (run_ind (λ w',
    length (overlayLeftPositions (config w')) = 3%nat ∧
    overlayVisibleWidths (config w') = overlayVisibleWidths (config w) ∧
    enableClickOutside (config w') = enableClickOutside (config w) ∧
    enableHoverFeedback (config w') = enableHoverFeedback (config w))); [..|done].
  - intros p w' HP. by rewrite (togglePhone_keeps config).
  - intros w' HP. by rewrite (deactivateAll_keeps config).
  - intros w' HP. by rewrite toggleDebugMode_config.
  - intros ps w' HP. unfold updateOverlayPositions.
    destruct ps as [ps|]; [|done]. case_bool_decide; [|done]. simpl. tauto.
  - intros w' HP. by rewrite destroy_config.
Qed.

Lemma config_stable_witness :
  length (overlayLeftPositions
            (config (run [CallUpdateOverlayPositions (Some [1; 2]%Z);
                          CallUpdateOverlayPositions (Some [10; 20; 30]%Z);
                          CallToggleDebugMode] demo))) = 3%nat ∧
  overlayVisibleWidths
    (config (run [CallUpdateOverlayPositions (Some [1; 2]%Z);
                  CallUpdateOverlayPositions (Some [10; 20; 30]%Z);
                  CallToggleDebugMode] demo)) = overlayVisibleWidths (config demo) ∧
  enableClickOutside
    (config (run [CallUpdateOverlayPositions (Some [1; 2]%Z);
                  CallUpdateOverlayPositions (Some [10; 20; 30]%Z);
                  CallToggleDebugMode] demo)) = enableClickOutside (config demo) ∧
  enableHoverFeedback
    (config (run [CallUpdateOverlayPositions (Some [1; 2]%Z);
                  CallUpdateOverlayPositions (Some [10; 20; 30]%Z);
                  CallToggleDebugMode] demo)) = enableHoverFeedback (config demo).
Proof.
  apply (config_stable [CallUpdateOverlayPositions (Some [1; 2]%Z);
                        CallUpdateOverlayPositions (Some [10; 20; 30]%Z);
                        CallToggleDebugMode] demo).
  by vm_compute.
Defined.

(** ** Page bootstrap *)

Lemma constructor_element c : ∃ w, constructor (Some c) = Normal w.
Proof. unfold constructor, construct. case_match; eauto. Qed.

Lemma instantiateAll_spec containers registry :
  ∃ ws, instantiateAll containers registry = Normal (registry ++ ws) ∧
        Forall2 (λ c w, constructor (Some c) = Normal w) containers ws.
Proof.
  revert registry. induction containers as [|c cs IH]; intros registry;
    cbn [instantiateAll].
  - exists []. by rewrite app_nil_r.
  - destruct (constructor_element c) as [w Hw]. rewrite Hw.
    destruct (IH (registry ++ [w])) as (ws & -> & Hws).
    exists (w :: ws). rewrite <- app_assoc. split; [done|]. by constructor.
Qed.

(** X13: the page bootstrap never throws, whatever containers the page has:
    it builds one instance per container, in document order, each the result
    of the constructor on that container. An instance on a container with
    cards is set up and idle; an instance on a container without cards has no
    overlay and no listener and has logged the warning. The bootstrap logs its
    count line exactly when there is at least one container. *)
Theorem bootstrap_completes (containers : list ContainerEl) :
  ∃ registry,
    bootstrap containers =
      Normal (registry,
              if bool_decide (0 < length containers)%nat
              then [ConsoleLog ("StackedPhones: Initialized " +:+ pretty (length containers)
                                +:+ " component(s)")]
              else []) ∧
    Forall2 (λ c w, constructor (Some c) = Normal w) containers registry ∧
    Forall2 (λ c w, getActivePhone w = None ∧
                    if bool_decide (cCards c = 0%nat)
                    then Deaf w ∧ overlays w = [] ∧
                         warnings (outputs w)
                         = ["StackedPhones: Container or phone cards not found"]
                    else Wired w ∧ warnings (outputs w) = [])
            containers registry.
Proof.
  destruct (instantiateAll_spec containers []) as (ws & Hws & Hall).
  exists ws. unfold bootstrap. rewrite Hws. simpl. split_and!; [done..|].
  eapply Forall2_impl; [done|]. intros c w Hc. simpl in Hc.
  unfold constructor, construct in Hc. simpl in Hc.
  case_bool_decide as Hz; simpl in Hc; injection Hc as <-.
  - done.
  - split; [|split; [apply init_StateInv|]];
      destruct c as [cl co n]; unfold sourceConfig; by vm_compute.
Qed.

(** ** The earlier version *)

Lemma legacy_deactivateAll_face w :
  classList (Legacy.deactivateAll w) = cleared (classList w) ∧
  activeCard (Legacy.deactivateAll w) = None ∧
  outputs (Legacy.deactivateAll w) =
    outputs w ++ [Dispatched (mkCustomEvent "phoneDeactivated" [] None (cleared (classList w)))].
Proof. done. Qed.

Lemma legacy_togglePhone_on p w :
  cardClassOf p ∉ classList w →
  classList (Legacy.togglePhone p w) = marked (cardClassOf p) (classList w) ∧
  activeCard (Legacy.togglePhone p w) = p ∧
  outputs (Legacy.togglePhone p w) =
    outputs w ++
      [Dispatched (mkCustomEvent "phoneDeactivated" [] None (cleared (classList w)));
       Dispatched (mkCustomEvent "phoneActivated" [("phoneNumber", p)] p
                     (marked (cardClassOf p) (classList w)))].
Proof.
  intros Hout. unfold Legacy.togglePhone, classList_contains.
  rewrite bool_decide_eq_false_2 by done. cbv zeta.
  destruct (legacy_deactivateAll_face w) as (Hc & Ha & Ho).
  unfold dispatchEvent, emit, classList_add, set_activeCard, set_classList.
  cbn [classList activeCard outputs]. rewrite Hc, Ho.
  split_and!; [done..|]. by rewrite <- app_assoc.
Qed.

Lemma legacy_togglePhone_face p w w' :
  sameFace w w' → sameFace (Legacy.togglePhone p w) (togglePhone p w').
Proof.
  intros (Hc & Ha & Ho). unfold sameFace.
  destruct (decide (cardClassOf p ∈ classList w')) as [Hin|Hout].
  - rewrite togglePhone_off by done.
    unfold Legacy.togglePhone, classList_contains.
    rewrite bool_decide_eq_true_2 by by rewrite Hc.
    destruct (legacy_deactivateAll_face w) as (-> & -> & ->).
    by rewrite deactivateAll_classList, deactivateAll_activeCard, deactivateAll_outputs, Hc, Ho.
  - rewrite togglePhone_on_classList, togglePhone_on_activeCard, togglePhone_on_outputs by done.
    destruct (legacy_togglePhone_on p w) as (-> & -> & ->); [by rewrite Hc|].
    by rewrite Hc, Ho.
Qed.

(** X14: for every sequence of [togglePhone] and [activatePhone] calls, with
    any arguments, the earlier version of the class (stacked-phones.js) and
    the later one show the page the same thing: started with the same
    container classes, selection and output, they end with the same container
    classes and the same selection, having dispatched the same custom events
    in the same order. What the later version adds is the ARIA state on the
    overlays. *)
Theorem legacy_agrees (calls : list ActivationCall) (w w' : World) :
  sameFace w w' → sameFace (foldl legacyCall w calls) (foldl laterCall w' calls).
Proof.
  revert w w'. induction calls as [|a calls IH]; intros w w' Hf; [done|].
  simpl. apply IH. destruct a; simpl; by apply legacy_togglePhone_face.
Qed.

Lemma legacy_agrees_witness :
  sameFace
    (foldl legacyCall (fresh sourceConfig c3)
       [ViaActivatePhone (JNum 1); ViaTogglePhone (Some "3"); ViaTogglePhone (Some "3")])
    (foldl laterCall demo
       [ViaActivatePhone (JNum 1); ViaTogglePhone (Some "3"); ViaTogglePhone (Some "3")]).
Proof.
  apply (legacy_agrees
           [ViaActivatePhone (JNum 1); ViaTogglePhone (Some "3"); ViaTogglePhone (Some "3")]
           (fresh sourceConfig c3) demo).
  by vm_compute.
Defined.

(** ** Attributes *)

#[local] Instance onlyAriaDiffers_refl : Reflexive onlyAriaDiffers.
Proof. by intros el. Qed.
#[local] Instance onlyAriaDiffers_trans : Transitive onlyAriaDiffers.
Proof.
  intros a b c [Hc1 H1] [Hc2 H2]. split; [congruence|].
  intros k Hp He. by rewrite H2, H1.
Qed.

Lemma updateAriaStates_onlyAria a w :
  Forall2 onlyAriaDiffers (elems w) (elems (updateAriaStates a w)).
Proof.
  unfold updateAriaStates, forEach.
  refine (forEachFrom_related onlyAriaDiffers _ _ _ _ _).
  intros o i w'. etrans; apply alter_related; try apply _;
    intros el; (split; [done|]); intros k Hp He; simpl; by rewrite lookup_insert_ne.
Qed.

Lemma deactivateAll_onlyAria w :
  Forall2 onlyAriaDiffers (elems w) (elems (deactivateAll w)).
Proof.
  apply (updateAriaStates_onlyAria None
           (set_activeCard None (classList_remove activeClasses w))).
Qed.

Lemma togglePhone_onlyAria p w :
  Forall2 onlyAriaDiffers (elems w) (elems (togglePhone p w)).
Proof.
  unfold togglePhone. case_match; [apply deactivateAll_onlyAria|].
  etrans; [apply deactivateAll_onlyAria|].
  apply (updateAriaStates_onlyAria p
           (set_activeCard p (classList_add (cardClassOf p) (deactivateAll w)))).
Qed.

(** X15: the only attributes of an overlay that the component ever rewrites
    are the pressed and expanded flags. Its class tokens, its item tag, its
    label, its role and its tabindex are as the constructor left them after
    any calls and input events, teardown included. *)
Theorem only_aria_rewritten (acts : list Action) (w : World) :
  Forall2 onlyAriaDiffers (elems w) (elems (run acts w)).
Proof.
  apply (run_ind (λ w', Forall2 onlyAriaDiffers (elems w) (elems w'))); [..|done].
  - intros p w' HR. etrans; [done|apply togglePhone_onlyAria].
  - intros w' HR. etrans; [done|apply deactivateAll_onlyAria].
  - intros w' HR. etrans; [done|]. eapply Forall2_impl; [apply toggleDebugMode_related|].
    intros el el' (Hc & Ha & _). split; [done|]. intros k _ _. by rewrite Ha.
  - intros ps w' HR. by rewrite (updateOverlayPositions_keeps elems).
  - intros w' HR. etrans; [done|].
    eapply Forall2_impl; [apply (proj1 (destroy_elems w'))|].
    intros el el' (Hc & Ha & _). split; [done|]. intros k _ _. by rewrite Ha.
Qed.

(** ** Teardown and the marker *)

(** C9: teardown breaks the consistency of marker and selection. From any
    Active(X) that a set-up instance reaches in ordinary use, [destroy()]
    resets the stored selection to none but leaves X's marker class on the
    container, where [deactivateAll] would have removed it: afterwards the
    selection is none and the container still carries exactly X's marker. *)
Theorem teardown_leaves_marker (c : ContainerEl) (w0 : World) (acts : list Action)
    (X : string) :
  constructor (Some c) = Normal w0 → cCards c ≠ 0%nat →
  forallb ordinary acts = true →
  getActivePhone (run acts w0) = Some X →
  getActivePhone (destroy (run acts w0)) = None ∧
  markers (destroy (run acts w0)) = [cardClassOf (Some X)] ∧
  markers (destroy (run acts w0)) ≠ markerOf (getActivePhone (destroy (run acts w0))).
Proof.
  intros Hc Hn Hall Ha.
  destruct (reachable_active _ _ _ _ _ Hc Hn Hall Ha) as (_ & _ & Hm).
  assert (getActivePhone (destroy (run acts w0)) = None) as Hnone by done.
  assert (markers (destroy (run acts w0)) = [cardClassOf (Some X)]) as Hm'.
  { unfold markers in *. by rewrite destroy_classList. }
  split_and!; [done..|]. by rewrite Hm', Hnone.
Qed.

Lemma teardown_leaves_marker_witness :
  getActivePhone (destroy (run [CallActivatePhone (JNum 1)] demo)) = None ∧
  markers (destroy (run [CallActivatePhone (JNum 1)] demo)) = [cardClassOf (Some "1")] ∧
  markers (destroy (run [CallActivatePhone (JNum 1)] demo))
  ≠ markerOf (getActivePhone (destroy (run [CallActivatePhone (JNum 1)] demo))).
Proof.
  apply (teardown_leaves_marker c3 demo [CallActivatePhone (JNum 1)] "1"); by vm_compute.
Defined.
